(** * The XML2RFC v2 rendering backend of mmark ([xml2rfcv2.go])

    A shallow embedding of the renderer [Xml2]: its state record, the output
    buffer it appends to, and the handlers that open and close sections, matter
    containers and reference groups, followed by the properties of the
    section/matter state machine. *)

From Stdlib Require Import ZArith Lia DecimalString.
From Stdlib.Strings Require Import String Ascii Byte.
From stdpp Require Import gmap strings list fin_maps.
From Equations Require Import Equations.

Local Open Scope Z_scope.

(** ** Go's [int]

    [int] is a 64-bit two's complement integer; every arithmetic operation of
    the source is followed by the wrap-around of the machine. *)
Module GoInt.

Definition int_min : Z := - 2 ^ 63.
Definition int_max : Z := 2 ^ 63 - 1.

Definition wrap (z : Z) : Z := (z + 2 ^ 63) mod 2 ^ 64 - 2 ^ 63.

Definition add (a b : Z) : Z := wrap (a + b).
Definition sub (a b : Z) : Z := wrap (a - b).

(** [a & b] *)
Definition and (a b : Z) : Z := Z.land a b.

Definition is_int (z : Z) : Prop := int_min <= z <= int_max.

Lemma wrap_small z : is_int z -> wrap z = z.
Proof.
  unfold is_int, int_min, int_max, wrap. intros Hz.
  rewrite Z.mod_small; lia.
Qed.

Lemma add_small a b : is_int (a + b) -> add a b = a + b.
Proof. apply wrap_small. Qed.

Lemma sub_small a b : is_int (a - b) -> sub a b = a - b.
Proof. apply wrap_small. Qed.

Lemma wrap_le z : int_min <= z -> wrap z <= z.
Proof.
  unfold int_min, wrap. intros Hz.
  pose proof (Z.mod_le (z + 2 ^ 63) (2 ^ 64)). lia.
Qed.

Lemma sub_1_lt i : 0 < i -> (Z.to_nat (sub i 1) < Z.to_nat i)%nat.
Proof.
  intros Hi. unfold sub.
  pose proof (wrap_le (i - 1)). unfold int_min in *. lia.
Qed.

End GoInt.

(** ** Byte strings

    A Go [string] is a [string]; a [[]byte] and the contents of a
    [bytes.Buffer] are a [list byte]. *)
Definition bytes (s : string) : list byte := list_byte_of_string s.
Arguments bytes : simpl never.

(** The characters Go writes with the escapes for newline, tab, double quote
    and backslash. *)
Definition nl : string := String "010"%char EmptyString.
Definition tab : string := String "009"%char EmptyString.
Definition dq : string := String "034"%char EmptyString.
Definition bsl : string := String "092"%char EmptyString.

Lemma bytes_app s t : bytes (s +:+ t) = bytes s ++ bytes t.
Proof.
  unfold bytes, list_byte_of_string.
  induction s as [|c s IH]; simpl; [reflexivity|].
  f_equal. exact IH.
Qed.

(** [bytes.HasPrefix(s, prefix)] *)
Fixpoint HasPrefix (s prefix : list byte) {struct prefix} : bool :=
  match prefix, s with
  | [], _ => true
  | _ :: _, [] => false
  | p :: prefix', c :: s' => if Byte.eqb c p then HasPrefix s' prefix' else false
  end.

Lemma HasPrefix_spec s prefix :
  HasPrefix s prefix = true <-> exists rest, s = prefix ++ rest.
Proof.
  revert s. induction prefix as [|p prefix IH]; intros s; simpl.
  - split; [intros _; exists s; reflexivity | reflexivity].
  - destruct s as [|c s].
    + split; [discriminate | intros [rest Hr]; discriminate].
    + destruct (Byte.eqb c p) eqn:Hcp.
      * apply Byte.byte_dec_bl in Hcp. subst c. rewrite IH.
        split; intros [rest Hr]; exists rest; congruence.
      * split; [discriminate|]. intros [rest Hr].
        assert (c = p) as -> by congruence.
        rewrite (Byte.byte_dec_lb (x:=p) (y:=p) eq_refl) in Hcp. discriminate.
Qed.

(** [strconv]-style decimal rendering of an [int], as [fmt.Sprintf] does for
    the verb [%d]. *)
Definition Itoa (z : Z) : string := NilZero.string_of_int (Z.to_int z).

(** ** Sample instances

    Concrete values for the declarations the renderer takes from the rest of
    the package, and concrete callbacks, on which the handlers can be run. *)
Module Sample.

Definition XML_STANDALONE : Z := 1.
Definition DOC_FRONT_MATTER : Z := 1.
Definition DOC_MAIN_MATTER : Z := 2.
Definition DOC_BACK_MATTER : Z := 3.
Definition LIST_TYPE_ORDERED : Z := 1.
Definition LIST_TYPE_DEFINITION : Z := 2.

Record citation : Type := mkCitation {
  link : list byte;
  typ : byte;
  filename : list byte
}.

Definition referenceFile (c : citation) : string :=
  "reference." +:+ string_of_list_byte (link c) +:+ ".xml".

(** A runtime that visits a map in the order of [map_to_list], at every loop. *)
Definition range (_ : nat) (m : gmap string citation) : list (string * citation) :=
  map_to_list m.

(** A callback that appends [s] to the buffer and reports [produced]. *)
Definition writes {R : Type} (s : string) (produced : bool)
  : R * list byte -> option (bool * (R * list byte)) :=
  fun w => Some (produced, (w.1, w.2 ++ bytes s)).

(** The citations [{A: Normative, B: Informative, C: Normative}]; [C] names
    its file. *)
Definition citations : gmap string citation :=
  <["A" := mkCitation (bytes "RFC1034") "n" []]>
  (<["B" := mkCitation (bytes "RFC2119") "i" []]>
  (<["C" := mkCitation (bytes "RFC8174") "n" (bytes "c.xml")]> ∅)).

(** Normative citations only. *)
Definition normative_only : gmap string citation :=
  <["A" := mkCitation (bytes "RFC1034") "n" []]>
  (<["C" := mkCitation (bytes "RFC8174") "n" (bytes "c.xml")]> ∅).

End Sample.

(** [count_occurrences pat s]: the number of positions of [s] at which [pat]
    starts. *)
Fixpoint count_occurrences (pat s : list byte) : nat :=
  match s with
  | [] => 0
  | _ :: s' => ((if HasPrefix s pat then 1 else 0) + count_occurrences pat s')%nat
  end.

(** ** The renderer *)

(** XML2 renderer configuration options: [XML2_STANDALONE = 1 << iota]. The
    handlers below test [XML_STANDALONE], the option of the XML renderer of
    the package, which another file declares. *)
Definition XML2_STANDALONE : Z := Z.shiftl 1 0.

Section Renderer.

(** Declarations of package [mmark] that this file uses and other files of
    the package define: the option bit [XML_STANDALONE], the document
    divisions, the list flags, the types behind the pointers [*IAL], [*title]
    and [*citation] with the two fields of a citation read here, and
    [referenceFile], which derives a file name from a citation. *)
Variable XML_STANDALONE : Z.
Variables DOC_FRONT_MATTER DOC_MAIN_MATTER DOC_BACK_MATTER : Z.
Variables LIST_TYPE_ORDERED LIST_TYPE_DEFINITION : Z.
Variables IAL title citation : Type.
Variable typ : citation -> byte.
Variable filename : citation -> list byte.
Variable referenceFile : citation -> string.

(** [range n m] is the order in which the [n]-th [for ... range] statement of
    [References] visits the map [m]. Go leaves that order to the runtime. *)
Variable range : nat -> gmap string citation -> list (string * citation).

Record Xml2 : Type := mkXml2 {
  flags : Z;            (* XML2_* options *)
  sectionLevel : Z;     (* current section level *)
  docLevel : Z;         (* frontmatter/mainmatter or backmatter *)
  ial : list IAL;       (* the IAL we see for this block element *)
  titleBlock : option title
}.

(** [Xml2Renderer(flags)]: every other field has Go's zero value. *)
Definition Xml2Renderer (flags : Z) : Xml2 :=
  {| flags := flags; sectionLevel := 0; docLevel := 0; ial := [];
     titleBlock := None |}.

Definition with_sectionLevel (v : Z) (o : Xml2) : Xml2 :=
  {| flags := flags o; sectionLevel := v; docLevel := docLevel o;
     ial := ial o; titleBlock := titleBlock o |}.

Definition with_docLevel (v : Z) (o : Xml2) : Xml2 :=
  {| flags := flags o; sectionLevel := sectionLevel o; docLevel := v;
     ial := ial o; titleBlock := titleBlock o |}.

Definition with_ial (v : list IAL) (o : Xml2) : Xml2 :=
  {| flags := flags o; sectionLevel := sectionLevel o; docLevel := docLevel o;
     ial := v; titleBlock := titleBlock o |}.

(** A handler runs on the receiver [options] and the buffer [out], which the
    callbacks it is given share with it. [None] is a Go panic. *)
Definition World : Type := Xml2 * list byte.

Definition M (A : Type) : Type := World -> option (A * World).

Definition ret {A} (a : A) : M A := fun w => Some (a, w).

Definition bind {A B} (m : M A) (k : A -> M B) : M B :=
  fun w => match m w with
           | Some (a, w') => k a w'
           | None => None
           end.

Notation "x ← y ; z" := (bind y (fun x => z))
  (at level 20, y at level 100, z at level 200, only parsing).
Notation "y ;; z" := (bind y (fun _ => z))
  (at level 100, z at level 200, only parsing, right associativity).

(** Reading and writing the receiver. *)
Definition get {A} (field : Xml2 -> A) : M A := fun w => Some (field w.1, w).
Definition modify (f : Xml2 -> Xml2) : M unit := fun w => Some (tt, (f w.1, w.2)).

(** [bytes.Buffer]: [Len], [WriteString], [Write] and [Truncate], which
    panics when [n] is negative or larger than the length. *)
Definition Len : M Z := fun w => Some (Z.of_nat (length w.2), w).
Definition WriteString (s : string) : M unit :=
  fun w => Some (tt, (w.1, w.2 ++ bytes s)).
Definition Write (p : list byte) : M unit :=
  fun w => Some (tt, (w.1, w.2 ++ p)).
Definition Truncate (n : Z) : M unit :=
  fun w => if (n <? 0) || (Z.of_nat (length w.2) <? n) then None
           else Some (tt, (w.1, take (Z.to_nat n) w.2)).

Definition GetFlags : M Z := get flags.
Definition GetState : M Z := ret 0.

Definition SetIAL (i : list IAL) : M unit := modify (fun o => with_ial (ial o ++ i) o).
Definition GetAndResetIAL : M (list IAL) :=
  i ← get ial; modify (with_ial []) ;; ret i.

(** The loop of [Header]:
    [for i := ...; i > 0; i-- { out.WriteString("</section>\n") }] *)
Equations? close_previous (i : Z) : M unit by wf (Z.to_nat i) lt :=
  close_previous i with Z_lt_dec 0 i => {
    | left _ := WriteString ("</section>" +:+ nl) ;; close_previous (GoInt.sub i 1);
    | right _ := ret tt }.
Proof. apply GoInt.sub_1_lt; assumption. Qed.

(** The loop of [References] and of [DocumentFooter]:
    [for i := options.sectionLevel; i > 0; i-- {
       out.WriteString("</section>\n"); options.sectionLevel-- }] *)
Equations? close_open_sections (i : Z) : M unit by wf (Z.to_nat i) lt :=
  close_open_sections i with Z_lt_dec 0 i => {
    | left _ :=
        WriteString ("</section>" +:+ nl) ;;
        modify (fun o => with_sectionLevel (GoInt.sub (sectionLevel o) 1) o) ;;
        close_open_sections (GoInt.sub i 1);
    | right _ := ret tt }.
Proof. apply GoInt.sub_1_lt; assumption. Qed.

Definition Header (text : M bool) (level : Z) (id : string) (quote : bool) : M unit :=
  if quote then
    (* this is a header inside an quoted text block (figure, aside) *)
    WriteString "<name>" ;;
    _ ← text;
    WriteString ("</name>" +:+ nl)
  else
    sl ← get sectionLevel;
    (if level <=? sl
     then close_previous (GoInt.add (GoInt.sub sl level) 1)  (* close previous ones *)
     else ret tt) ;;
    (* new section *)
    WriteString (nl +:+ "<section anchor=" +:+ dq +:+ id +:+ dq +:+ ">" +:+ nl) ;;
    WriteString "<name>" ;;
    _ ← text;
    WriteString ("</name>" +:+ nl) ;;
    modify (with_sectionLevel level).

Definition List (text : M bool) (flags start : Z) : M unit :=
  marker ← Len;
  (if negb (GoInt.and flags LIST_TYPE_ORDERED =? 0) then
     if start <=? 1 then WriteString ("<ol>" +:+ nl)
     else WriteString ("<ol start=" +:+ dq +:+ Itoa start +:+ dq +:+ ">" +:+ nl)
   else if negb (GoInt.and flags LIST_TYPE_DEFINITION =? 0) then
     WriteString ("<dl>" +:+ nl)
   else
     WriteString ("<ul>" +:+ nl)) ;;
  produced ← text;
  if negb produced then Truncate marker
  else
    if negb (GoInt.and flags LIST_TYPE_ORDERED =? 0) then WriteString ("</ol>" +:+ nl)
    else if negb (GoInt.and flags LIST_TYPE_DEFINITION =? 0) then WriteString ("</dl>" +:+ nl)
    else WriteString ("</ul>" +:+ nl).

Definition Paragraph (text : M bool) : M unit :=
  marker ← Len;
  WriteString "<t>" ;;
  produced ← text;
  if negb produced then Truncate marker
  else WriteString ("</t>" +:+ nl).

Definition Image (link title' alt : list byte) : M unit :=
  if HasPrefix link (bytes "http://") || HasPrefix link (bytes "https://") then
    (* treat it like a link *)
    WriteString (bsl +:+ "href{") ;;
    Write link ;;
    WriteString "}{" ;;
    Write alt ;;
    WriteString "}"
  else
    WriteString (bsl +:+ "includegraphics{") ;;
    Write link ;;
    WriteString "}".

(** The first loop of [References]: count the references. *)
Definition count_refs (cs : list (string * citation)) : Z * Z :=
  foldl (fun n kc =>
           let refi := if Byte.eqb (typ kc.2) "i" then GoInt.add n.1 1 else n.1 in
           let refn := if Byte.eqb (typ kc.2) "n" then GoInt.add n.2 1 else n.2 in
           (refi, refn))
        (0, 0) cs.

(** The file a citation is included from: its own when it is not empty,
    otherwise one constructed by [referenceFile]. *)
Definition include_file (c : citation) : string :=
  let f := string_of_list_byte (filename c) in
  if String.eqb f "" then referenceFile c else f.

(** The second and the third loop of [References], which differ in the kind
    ['i'] or ['n'] they select:
    [for _, c := range citations { if c.typ == kind { ... } }] *)
Fixpoint include_refs (kind : byte) (cs : list (string * citation)) : M unit :=
  match cs with
  | [] => ret tt
  | kc :: cs' =>
      (if Byte.eqb (typ kc.2) kind
       then WriteString (tab +:+ "<xi:include href=" +:+ dq +:+ include_file kc.2
                           +:+ dq +:+ "/>" +:+ nl)
       else ret tt) ;;
      include_refs kind cs'
  end.

Definition References (citations : gmap string citation) (first : bool) : M unit :=
  fl ← get flags;
  if negb first || (GoInt.and fl XML_STANDALONE =? 0) then ret tt
  else
    (* close any option section tags *)
    sl ← get sectionLevel;
    close_open_sections sl ;;
    dl ← get docLevel;
    (if dl =? DOC_FRONT_MATTER then
       WriteString ("</front>" +:+ nl) ;; WriteString ("<back>" +:+ nl)
     else if dl =? DOC_MAIN_MATTER then
       WriteString ("</middle>" +:+ nl) ;; WriteString ("<back>" +:+ nl)
     else if dl =? DOC_BACK_MATTER then
       ret tt (* nothing to do *)
     else ret tt) ;;
    modify (with_docLevel DOC_BACK_MATTER) ;;
    (* count the references *)
    let n := count_refs (range 0 citations) in
    if 0 <? GoInt.add n.1 n.2 then
      (if 0 <? n.1 then
         WriteString ("<references title=" +:+ dq +:+ "Informative References"
                        +:+ dq +:+ ">" +:+ nl) ;;
         include_refs "i" (range 1 citations) ;;
         WriteString ("</references>" +:+ nl)
       else ret tt) ;;
      (if 0 <? n.2 then
         WriteString ("<references title=" +:+ dq +:+ "Normative References"
                        +:+ dq +:+ ">" +:+ nl) ;;
         include_refs "n" (range 2 citations) ;;
         WriteString ("</references>" +:+ nl)
       else ret tt)
    else ret tt.

(** header and footer *)
Definition DocumentHeader (first : bool) : M unit :=
  fl ← get flags;
  if negb first || (GoInt.and fl XML_STANDALONE =? 0) then ret tt
  else WriteString ("<?xml version=" +:+ dq +:+ "1.0" +:+ dq +:+ " encoding="
                      +:+ dq +:+ "UTF-8" +:+ dq +:+ "?>" +:+ nl).

Definition DocumentFooter (first : bool) : M unit :=
  fl ← get flags;
  if negb first || (GoInt.and fl XML_STANDALONE =? 0) then ret tt
  else
    (* close any option section tags *)
    sl ← get sectionLevel;
    close_open_sections sl ;;
    dl ← get docLevel;
    (if dl =? DOC_FRONT_MATTER then WriteString ("</front>" +:+ nl)
     else if dl =? DOC_MAIN_MATTER then WriteString ("</middle>" +:+ nl)
     else if dl =? DOC_BACK_MATTER then WriteString ("</back>" +:+ nl)
     else ret tt) ;;
    WriteString ("</rfc>" +:+ nl).

Definition DocumentMatter (matter : Z) : M unit :=
  (* we default to frontmatter already openened in the documentHeader *)
  (if matter =? DOC_FRONT_MATTER then
     ret tt (* already open *)
   else if matter =? DOC_MAIN_MATTER then
     WriteString ("</front>" +:+ nl) ;; WriteString ("<middle>" +:+ nl)
   else if matter =? DOC_BACK_MATTER then
     WriteString ("</middle>" +:+ nl) ;; WriteString ("<back>" +:+ nl)
   else ret tt) ;;
  modify (with_docLevel matter).

(** ** Vocabulary of the properties *)

Definition section_close : list byte := bytes ("</section>" +:+ nl).

(** [n] closing section tags in a row. *)
Definition section_closes (n : nat) : list byte := mjoin (replicate n section_close).

Definition section_open (id : string) : list byte :=
  bytes (nl +:+ "<section anchor=" +:+ dq +:+ id +:+ dq +:+ ">" +:+ nl).

Arguments section_open : simpl never.

(** The three divisions of a document, the codes [docLevel] holds for them,
    the tag that closes each and what it takes to get from each to the back
    matter. *)
Inductive Matter : Type := Front | Main | Back.

Definition matter_code (p : Matter) : Z :=
  match p with
  | Front => DOC_FRONT_MATTER
  | Main => DOC_MAIN_MATTER
  | Back => DOC_BACK_MATTER
  end.

Definition matter_close (p : Matter) : list byte :=
  match p with
  | Front => bytes ("</front>" +:+ nl)
  | Main => bytes ("</middle>" +:+ nl)
  | Back => bytes ("</back>" +:+ nl)
  end.

Definition back_transition (p : Matter) : list byte :=
  match p with
  | Front => bytes ("</front>" +:+ nl) ++ bytes ("<back>" +:+ nl)
  | Main => bytes ("</middle>" +:+ nl) ++ bytes ("<back>" +:+ nl)
  | Back => []
  end.

Definition standalone (o : Xml2) : Prop := GoInt.and (flags o) XML_STANDALONE ≠ 0.

(** The citations of one kind among the visited entries, in visiting order. *)
Definition of_kind (kind : byte) (cs : list (string * citation)) : list citation :=
  (filter (λ kc, Byte.eqb (typ kc.2) kind) cs).*2.

Definition include_line (c : citation) : list byte :=
  bytes (tab +:+ "<xi:include href=" +:+ dq +:+ include_file c +:+ dq +:+ "/>" +:+ nl).

(** A titled group of inclusions; nothing at all for no citation. *)
Definition reference_group (name : string) (cs : list citation) : list byte :=
  match cs with
  | [] => []
  | _ :: _ =>
      bytes ("<references title=" +:+ dq +:+ name +:+ dq +:+ ">" +:+ nl)
        ++ mjoin (include_line <$> cs)
        ++ bytes ("</references>" +:+ nl)
  end.

(** The tag a list of the given flags and start opens with. *)
Definition list_open_tag (flags start : Z) : list byte :=
  if decide (GoInt.and flags LIST_TYPE_ORDERED = 0) then
    if decide (GoInt.and flags LIST_TYPE_DEFINITION = 0) then bytes ("<ul>" +:+ nl)
    else bytes ("<dl>" +:+ nl)
  else
    if decide (start <= 1) then bytes ("<ol>" +:+ nl)
    else bytes ("<ol start=" +:+ dq +:+ Itoa start +:+ dq +:+ ">" +:+ nl).

(** The number of sections a heading of [level] closes at depth [depth]. *)
Definition closed_by (level depth : Z) : nat :=
  if decide (level <= depth) then Z.to_nat (depth - level + 1) else 0%nat.

(** The receiver once the open sections are closed. *)
Definition drained (o : Xml2) : Xml2 :=
  if decide (0 < sectionLevel o) then with_sectionLevel 0 o else o.

(** What is written to get from the division with code [dl] to the back
    matter. *)
Definition to_back (dl : Z) : list byte :=
  if decide (dl = DOC_FRONT_MATTER) then back_transition Front
  else if decide (dl = DOC_MAIN_MATTER) then back_transition Main
  else [].

(** A callback that differs from [text] in the boolean it returns only. *)
Definition negated (text : M bool) : M bool :=
  fun w => match text w with
           | Some (produced, w') => Some (negb produced, w')
           | None => None
           end.

(** ** Assumption on the document divisions

    Go rejects a [switch] with two equal constant cases. *)
Hypothesis DOC_distinct :
  NoDup [DOC_FRONT_MATTER; DOC_MAIN_MATTER; DOC_BACK_MATTER].

(** ** The loops *)

Lemma bind_Some {A B} (m : M A) (k : A → M B) w a w' :
  m w = Some (a, w') → bind m k w = k a w'.
Proof. intros Hm. unfold bind. by rewrite Hm. Qed.


Lemma section_closes_S n : section_closes (S n) = section_close ++ section_closes n.
Proof. reflexivity. Qed.

Lemma close_previous_spec (n : nat) : ∀ i o b,
  Z.to_nat i = n → i <= GoInt.int_max →
  close_previous i (o, b) = Some (tt, (o, b ++ section_closes n)).
Proof.
  induction n as [|n IH]; intros i o b Hn Hi; rewrite close_previous_equation_1;
    destruct (Z_lt_dec 0 i) as [Hpos|Hneg]; simpl; try lia.
  - unfold ret, section_closes. simpl. by rewrite app_nil_r.
  - unfold bind, WriteString. simpl.
    assert (GoInt.sub i 1 = i - 1) as ->.
    { apply GoInt.wrap_small. unfold GoInt.is_int, GoInt.int_min, GoInt.int_max in *. lia. }
    rewrite IH by lia. rewrite section_closes_S, app_assoc. reflexivity.
Qed.

Lemma close_open_sections_spec (n : nat) : ∀ i o b,
  Z.to_nat i = n → 0 <= i <= GoInt.int_max → sectionLevel o = i →
  close_open_sections i (o, b)
  = Some (tt, (with_sectionLevel 0 o, b ++ section_closes n)).
Proof.
  induction n as [|n IH]; intros i o b Hn Hi Ho; rewrite close_open_sections_equation_1;
    destruct (Z_lt_dec 0 i) as [Hpos|Hneg]; simpl; try lia.
  - assert (i = 0) as -> by lia. destruct o; simpl in *; subst.
    unfold ret, section_closes. simpl. by rewrite app_nil_r.
  - unfold bind, WriteString, modify. simpl.
    assert (GoInt.sub i 1 = i - 1) as Hsub.
    { apply GoInt.wrap_small. unfold GoInt.is_int, GoInt.int_min, GoInt.int_max in *. lia. }
    rewrite Ho, Hsub. rewrite IH; [|lia|lia|reflexivity].
    rewrite section_closes_S, app_assoc. reflexivity.
Qed.

Lemma close_open_sections_nonpos i w : i <= 0 → close_open_sections i w = Some (tt, w).
Proof.
  intros Hi. rewrite close_open_sections_equation_1.
  destruct (Z_lt_dec 0 i); [lia | reflexivity].
Qed.

(** ** The heading handler *)

Lemma standalone_test o : standalone o → (GoInt.and (flags o) XML_STANDALONE =? 0) = false.
Proof. intros H. by apply Z.eqb_neq. Qed.

(** What [Header] does outside a quoted block, whatever the callback does. *)
Lemma Header_section (text : M bool) (level : Z) (id : string) o b :
  sectionLevel o - level < GoInt.int_max →
  Header text level id false (o, b)
  = match text (o, b ++ section_closes (closed_by level (sectionLevel o))
                     ++ section_open id ++ bytes "<name>") with
    | Some (_, (o', b')) =>
        Some (tt, (with_sectionLevel level o', b' ++ bytes ("</name>" +:+ nl)))
    | None => None
    end.
Proof.
  intros Hrange. unfold Header, closed_by, bind, get, WriteString, modify, ret. simpl.
  destruct (Z.leb_spec level (sectionLevel o)) as [Hle|Hgt].
  - rewrite decide_True by done.
    assert (GoInt.add (GoInt.sub (sectionLevel o) level) 1 = sectionLevel o - level + 1) as ->.
    { unfold GoInt.add, GoInt.sub.
      rewrite (GoInt.wrap_small (sectionLevel o - level));
        [apply GoInt.wrap_small|];
        unfold GoInt.is_int, GoInt.int_min, GoInt.int_max in *; lia. }
    rewrite (close_previous_spec (Z.to_nat (sectionLevel o - level + 1)));
      [|done|unfold GoInt.int_max in *; lia].
    simpl. rewrite <- !app_assoc.
    destruct (text _) as [[r [o' b']]|]; reflexivity.
  - rewrite decide_False by lia. simpl. rewrite <- !app_assoc.
    destruct (text _) as [[r [o' b']]|]; reflexivity.
Qed.

(** C2: outside a quoted block, [Header] at depth [sectionLevel] first writes
    [sectionLevel - level + 1] closing section tags when [level <= sectionLevel]
    and none otherwise, then opens exactly one section anchored at [id], wraps
    what the title callback renders in a [name] node and sets [sectionLevel]
    to [level]; a level more than one past the depth opens that one section
    only. The count is the one of the source as long as it fits Go's [int]. *)
Theorem Header_closes_then_opens_one_section
    (text : M bool) (level : Z) (id : string) o b :
  sectionLevel o - level < GoInt.int_max →
  Header text level id false (o, b)
  = match text (o, b ++ section_closes
                         (if decide (level <= sectionLevel o)
                          then Z.to_nat (sectionLevel o - level + 1) else 0%nat)
                     ++ section_open id ++ bytes "<name>") with
    | Some (_, (o', b')) =>
        Some (tt, (with_sectionLevel level o', b' ++ bytes ("</name>" +:+ nl)))
    | None => None
    end
  ∧ (sectionLevel o + 1 < level →
     Header text level id false (o, b)
     = match text (o, b ++ section_open id ++ bytes "<name>") with
       | Some (_, (o', b')) =>
           Some (tt, (with_sectionLevel level o', b' ++ bytes ("</name>" +:+ nl)))
       | None => None
       end).
Proof.
  intros Hrange. split.
  - by apply Header_section.
  - intros Hjump. rewrite Header_section by done.
    unfold closed_by. by rewrite decide_False by lia.
Qed.

(** What [Header] does inside a quoted block. *)
Lemma Header_quoted (text : M bool) (level : Z) (id : string) o b :
  Header text level id true (o, b)
  = match text (o, b ++ bytes "<name>") with
    | Some (_, (o', b')) => Some (tt, (o', b' ++ bytes ("</name>" +:+ nl)))
    | None => None
    end.
Proof.
  unfold Header, bind, WriteString. simpl.
  destruct (text _) as [[r [o' b']]|]; reflexivity.
Qed.

Lemma Header_negated (text : M bool) (level : Z) (id : string) (quote : bool) w :
  Header (negated text) level id quote w = Header text level id quote w.
Proof.
  unfold Header, negated, bind. destruct quote; simpl.
  - destruct (text _) as [[r w']|]; reflexivity.
  - destruct (if level <=? _ then _ else _) as [[[] w1]|]; [|reflexivity].
    simpl. destruct (text _) as [[r w']|]; reflexivity.
Qed.

(** C10: [Header] does not look at the boolean its title callback returns.
    Negating that boolean changes nothing, and whichever boolean the callback
    returns, the buffer it leaves is kept whole and the closing [name] tag is
    appended to it: in a quoted block after the opening [name] tag, otherwise
    after the closing tags, the section opening tag and the opening [name]
    tag, with [sectionLevel] set to [level]. *)
Theorem Header_ignores_callback_result
    (text : M bool) (level : Z) (id : string) (quote : bool) o b :
  Header (negated text) level id quote (o, b) = Header text level id quote (o, b)
  ∧ ∃ closes : nat,
      let before := if quote then [] else section_closes closes ++ section_open id in
      ∀ (text : M bool) produced o' b',
        text (o, b ++ before ++ bytes "<name>") = Some (produced, (o', b')) →
        Header text level id quote (o, b)
        = Some (tt, (if quote then o' else with_sectionLevel level o',
                     b' ++ bytes ("</name>" +:+ nl))).
Proof.
  split; [apply Header_negated|].
  destruct quote.
  - exists 0%nat. cbv zeta. intros text' produced o' b' Htext.
    rewrite Header_quoted. simpl in Htext. by rewrite Htext.
  - unfold Header, bind, get, WriteString, modify, ret. simpl.
    destruct (level <=? sectionLevel o).
    + destruct (Z_lt_dec 0 (GoInt.add (GoInt.sub (sectionLevel o) level) 1)) as [Hpos|Hneg].
      * exists (Z.to_nat (GoInt.add (GoInt.sub (sectionLevel o) level) 1)).
        intros text' produced o' b' Htext.
        rewrite (close_previous_spec _ _ _ _ eq_refl).
        -- simpl. unfold section_open in Htext. rewrite <- ?app_assoc in Htext.
           rewrite <- ?app_assoc, Htext. reflexivity.
        -- unfold GoInt.add, GoInt.wrap, GoInt.int_max.
           pose proof (Z.mod_pos_bound (GoInt.sub (sectionLevel o) level + 1 + 2 ^ 63) (2 ^ 64)).
           lia.
      * exists 0%nat. intros text' produced o' b' Htext.
        rewrite close_previous_equation_1.
        destruct (Z_lt_dec _ _); [lia|]. simpl.
        change (section_closes 0) with (@nil byte) in Htext.
        rewrite app_nil_l in Htext. unfold section_open in Htext.
        rewrite <- ?app_assoc in Htext.
        rewrite <- ?app_assoc, Htext. reflexivity.
    + exists 0%nat. intros text' produced o' b' Htext. simpl.
      change (section_closes 0) with (@nil byte) in Htext.
        rewrite app_nil_l in Htext. unfold section_open in Htext.
        rewrite <- ?app_assoc in Htext.
      rewrite <- ?app_assoc, Htext. reflexivity.
Qed.

(** ** Blocks that are dropped when empty *)

Lemma Truncate_back o (b t : list byte) :
  Truncate (Z.of_nat (length b)) (o, b ++ t) = Some (tt, (o, b)).
Proof.
  unfold Truncate. simpl.
  rewrite length_app, Nat2Z.id, take_app_length.
  destruct (Z.ltb_spec (Z.of_nat (length b)) 0); [lia|].
  destruct (Z.ltb_spec (Z.of_nat (length b + length t)) (Z.of_nat (length b))); [lia|].
  reflexivity.
Qed.

Lemma List_writes_open_tag (text : M bool) (flags start : Z) o b :
  List text flags start (o, b)
  = match text (o, b ++ list_open_tag flags start) with
    | Some (true, (o', b')) =>
        (if negb (GoInt.and flags LIST_TYPE_ORDERED =? 0)
         then WriteString ("</ol>" +:+ nl)
         else if negb (GoInt.and flags LIST_TYPE_DEFINITION =? 0)
              then WriteString ("</dl>" +:+ nl)
              else WriteString ("</ul>" +:+ nl)) (o', b')
    | Some (false, w') => Truncate (Z.of_nat (length b)) w'
    | None => None
    end.
Proof.
  unfold List, list_open_tag, bind, Len. simpl.
  destruct (Z.eqb_spec (GoInt.and flags LIST_TYPE_ORDERED) 0) as [Ho|Ho]; simpl.
  - rewrite (decide_True _ _ Ho).
    destruct (Z.eqb_spec (GoInt.and flags LIST_TYPE_DEFINITION) 0) as [Hd|Hd]; simpl.
    + rewrite (decide_True _ _ Hd). destruct (text _) as [[[] [o' b']]|]; reflexivity.
    + rewrite (decide_False _ _ Hd). destruct (text _) as [[[] [o' b']]|]; reflexivity.
  - rewrite (decide_False _ _ Ho).
    destruct (Z.leb_spec start 1) as [Hs|Hs]; simpl.
    + rewrite decide_True by done. destruct (text _) as [[[] [o' b']]|]; reflexivity.
    + rewrite decide_False by lia. destruct (text _) as [[[] [o' b']]|]; reflexivity.
Qed.

(** C8: when the content callback of [List] (whatever the flags and the
    start) or of [Paragraph] returns false, the buffer after the call is the
    buffer before the call: the opening tag and what the callback appended to
    it are truncated away and no closing tag is written. The callback appends
    to the buffer it is given, as every writer of the output buffer does. *)
Theorem List_Paragraph_rollback (text : M bool) (flags start : Z) o b o' t :
  (text (o, b ++ list_open_tag flags start)
   = Some (false, (o', b ++ list_open_tag flags start ++ t)) →
   List text flags start (o, b) = Some (tt, (o', b)))
  ∧ (text (o, b ++ bytes "<t>") = Some (false, (o', b ++ bytes "<t>" ++ t)) →
     Paragraph text (o, b) = Some (tt, (o', b))).
Proof.
  split; intros Htext.
  - rewrite List_writes_open_tag, Htext. apply Truncate_back.
  - unfold Paragraph, bind, Len, WriteString. simpl. rewrite Htext. simpl.
    apply Truncate_back.
Qed.

(** ** Images *)

(** C9: [Image] writes a hyperlink, [\href] with the link and the alt text,
    when the link starts with [http://] or with [https://], and for every
    other link an [\includegraphics] with the link. *)
Theorem Image_href_or_includegraphics (link title' alt : list byte) o b :
  ((∃ rest, link = bytes "http://" ++ rest) ∨ (∃ rest, link = bytes "https://" ++ rest) →
   Image link title' alt (o, b)
   = Some (tt, (o, b ++ bytes (bsl +:+ "href{") ++ link ++ bytes "}{" ++ alt ++ bytes "}")))
  ∧ (¬ (∃ rest, link = bytes "http://" ++ rest) →
     ¬ (∃ rest, link = bytes "https://" ++ rest) →
     Image link title' alt (o, b)
     = Some (tt, (o, b ++ bytes (bsl +:+ "includegraphics{") ++ link ++ bytes "}"))).
Proof.
  unfold Image. split.
  - intros Hscheme.
    assert (HasPrefix link (bytes "http://") || HasPrefix link (bytes "https://") = true) as ->.
    { apply orb_true_iff. rewrite !HasPrefix_spec. exact Hscheme. }
    unfold bind, WriteString, Write. simpl. by rewrite <- !app_assoc.
  - intros Hhttp Hhttps.
    assert (HasPrefix link (bytes "http://") || HasPrefix link (bytes "https://") = false) as ->.
    { apply orb_false_iff. split; apply not_true_is_false; rewrite HasPrefix_spec; assumption. }
    unfold bind, WriteString, Write. simpl. by rewrite <- !app_assoc.
Qed.

(** ** Document lifecycle *)

Lemma DOC_ne :
  DOC_FRONT_MATTER ≠ DOC_MAIN_MATTER ∧ DOC_FRONT_MATTER ≠ DOC_BACK_MATTER
  ∧ DOC_MAIN_MATTER ≠ DOC_BACK_MATTER.
Proof.
  pose proof DOC_distinct as Hd.
  apply NoDup_cons in Hd as [H1 Hd]. apply NoDup_cons in Hd as [H2 _].
  rewrite !elem_of_cons in H1. rewrite elem_of_cons in H2. tauto.
Qed.

Lemma drain_sections o b :
  sectionLevel o <= GoInt.int_max →
  close_open_sections (sectionLevel o) (o, b)
  = Some (tt, (drained o, b ++ section_closes (Z.to_nat (sectionLevel o)))).
Proof.
  intros Hmax. unfold drained. case_decide as Hpos.
  - by apply close_open_sections_spec; [|lia|].
  - rewrite close_open_sections_nonpos by lia.
    replace (Z.to_nat (sectionLevel o)) with 0%nat by lia.
    unfold section_closes. simpl. by rewrite app_nil_r.
Qed.

Lemma drained_nonneg o : 0 <= sectionLevel o → drained o = with_sectionLevel 0 o.
Proof.
  intros Hk. unfold drained. case_decide; [done|].
  destruct o; unfold with_sectionLevel; simpl in *. f_equal. lia.
Qed.

(** C4: with [first] false, or with the standalone flag unset,
    [DocumentHeader], [DocumentFooter] and [References] return at once: the
    buffer and the renderer ([sectionLevel], [docLevel], the pending IALs and
    the rest) are what they were. *)
Theorem lifecycle_handlers_noop
    (first : bool) (citations : gmap string citation) (w : World) :
  first = false ∨ GoInt.and (flags w.1) XML_STANDALONE = 0 →
  DocumentHeader first w = Some (tt, w)
  ∧ DocumentFooter first w = Some (tt, w)
  ∧ References citations first w = Some (tt, w).
Proof.
  intros Hoff.
  assert (negb first || (GoInt.and (flags w.1) XML_STANDALONE =? 0) = true) as Hguard.
  { destruct Hoff as [-> | ->]; [reflexivity | apply orb_true_r]. }
  unfold DocumentHeader, DocumentFooter, References, bind, get, ret.
  rewrite Hguard. done.
Qed.

Lemma DocumentFooter_spec (p : Matter) o b :
  standalone o → 0 <= sectionLevel o <= GoInt.int_max → docLevel o = matter_code p →
  DocumentFooter true (o, b)
  = Some (tt, (with_sectionLevel 0 o,
               b ++ section_closes (Z.to_nat (sectionLevel o))
                 ++ matter_close p ++ bytes ("</rfc>" +:+ nl))).
Proof.
  intros Hs Hk Hp. destruct DOC_ne as (Hfm & Hfb & Hmb).
  unfold DocumentFooter, bind, get. simpl.
  rewrite (standalone_test _ Hs). simpl.
  rewrite drain_sections by lia. rewrite drained_nonneg by lia. simpl. rewrite Hp.
  destruct p; simpl; unfold WriteString; simpl.
  - rewrite Z.eqb_refl. simpl. by rewrite <- !app_assoc.
  - destruct (Z.eqb_spec DOC_MAIN_MATTER DOC_FRONT_MATTER); [congruence|].
    rewrite Z.eqb_refl. simpl. by rewrite <- !app_assoc.
  - destruct (Z.eqb_spec DOC_BACK_MATTER DOC_FRONT_MATTER); [congruence|].
    destruct (Z.eqb_spec DOC_BACK_MATTER DOC_MAIN_MATTER); [congruence|].
    rewrite Z.eqb_refl. simpl. by rewrite <- !app_assoc.
Qed.

(** C5: in standalone mode [DocumentFooter], called with [first] true at
    depth [sectionLevel = k] in the division [p], appends [k] closing section
    tags, then the closing tag of [p], then the closing [rfc] tag, and leaves
    [sectionLevel] at 0. *)
Theorem DocumentFooter_sections_matter_document (p : Matter) (k : Z) o b :
  standalone o → sectionLevel o = k → 0 <= k <= GoInt.int_max →
  docLevel o = matter_code p →
  DocumentFooter true (o, b)
  = Some (tt, (with_sectionLevel 0 o,
               b ++ section_closes (Z.to_nat k)
                 ++ matter_close p ++ bytes ("</rfc>" +:+ nl))).
Proof.
  intros Hs <- Hk Hp. by apply DocumentFooter_spec.
Qed.

(** ** The matter handler in a fragment *)

(** C3, where the code departs from it: [DocumentMatter] does not test the
    standalone flag. With the flag unset it still writes the tags that close
    the front matter and open the main matter. *)
Theorem DocumentMatter_writes_in_fragment o b :
  GoInt.and (flags o) XML_STANDALONE = 0 →
  DocumentMatter DOC_MAIN_MATTER (o, b)
  = Some (tt, (with_docLevel DOC_MAIN_MATTER o,
               b ++ bytes ("</front>" +:+ nl) ++ bytes ("<middle>" +:+ nl))).
Proof.
  intros _. destruct DOC_ne as (Hfm & _).
  unfold DocumentMatter, bind, WriteString, modify. cbn [fst snd].
  destruct (Z.eqb_spec DOC_MAIN_MATTER DOC_FRONT_MATTER); [congruence|].
  rewrite Z.eqb_refl. cbn [fst snd]. by rewrite <- app_assoc.
Qed.

(** ** References *)

(** A [range] over a map visits each entry once, in an order of its own. *)
Hypothesis range_perm : ∀ n m, range n m ≡ₚ map_to_list m.

Lemma of_kind_cons kind kc cs :
  of_kind kind (kc :: cs)
  = if Byte.eqb (typ kc.2) kind then kc.2 :: of_kind kind cs else of_kind kind cs.
Proof.
  unfold of_kind. destruct (Byte.eqb (typ kc.2) kind) eqn:Hk.
  - rewrite filter_cons_True; [reflexivity | by apply Is_true_true].
  - rewrite filter_cons_False; [reflexivity | by apply Is_true_false].
Qed.

Lemma of_kind_perm kind cs cs' : cs ≡ₚ cs' → of_kind kind cs ≡ₚ of_kind kind cs'.
Proof. intros Hp. unfold of_kind. by rewrite Hp. Qed.

Lemma of_kind_range kind n m : of_kind kind (range n m) ≡ₚ of_kind kind (map_to_list m).
Proof. apply of_kind_perm, range_perm. Qed.

Lemma of_kind_length kind cs : (length (of_kind kind cs) ≤ length cs)%nat.
Proof. unfold of_kind. rewrite length_fmap. apply length_filter. Qed.

(** A citation has one kind: the two counters never count the same entry. *)
Lemma of_kind_disjoint cs :
  (length (of_kind "i" cs) + length (of_kind "n" cs) ≤ length cs)%nat.
Proof.
  induction cs as [|kc cs IH]; [reflexivity|].
  rewrite !of_kind_cons.
  destruct (Byte.eqb (typ kc.2) "i") eqn:Hi; destruct (Byte.eqb (typ kc.2) "n") eqn:Hn;
    simpl; try lia.
  apply Byte.byte_dec_bl in Hi. apply Byte.byte_dec_bl in Hn. congruence.
Qed.

Lemma count_refs_from (cs : list (string * citation)) : ∀ refi refn,
  0 <= refi → 0 <= refn →
  refi + Z.of_nat (length cs) <= GoInt.int_max →
  refn + Z.of_nat (length cs) <= GoInt.int_max →
  foldl (fun n kc =>
           let refi := if Byte.eqb (typ kc.2) "i" then GoInt.add n.1 1 else n.1 in
           let refn := if Byte.eqb (typ kc.2) "n" then GoInt.add n.2 1 else n.2 in
           (refi, refn))
        (refi, refn) cs
  = (refi + Z.of_nat (length (of_kind "i" cs)), refn + Z.of_nat (length (of_kind "n" cs))).
Proof.
  induction cs as [|kc cs IH]; intros refi refn Hi Hn Hbi Hbn.
  - simpl. f_equal; lia.
  - simpl foldl. rewrite !of_kind_cons. simpl length in Hbi, Hbn.
    assert (∀ z, 0 <= z → z + 1 <= GoInt.int_max → GoInt.add z 1 = z + 1) as Hadd.
    { intros z Hz Hzb. apply GoInt.wrap_small.
      unfold GoInt.is_int, GoInt.int_min, GoInt.int_max in *. lia. }
    destruct (Byte.eqb (typ kc.2) "i"), (Byte.eqb (typ kc.2) "n"); simpl;
      rewrite ?Hadd by lia; rewrite IH by lia; f_equal; lia.
Qed.

Lemma count_refs_spec (cs : list (string * citation)) :
  Z.of_nat (length cs) <= GoInt.int_max →
  count_refs cs
  = (Z.of_nat (length (of_kind "i" cs)), Z.of_nat (length (of_kind "n" cs))).
Proof.
  intros Hlen. unfold count_refs. by rewrite count_refs_from by lia.
Qed.

Lemma include_refs_spec kind (cs : list (string * citation)) : ∀ o b,
  include_refs kind cs (o, b)
  = Some (tt, (o, b ++ mjoin (include_line <$> of_kind kind cs))).
Proof.
  induction cs as [|kc cs IH]; intros o b.
  - simpl. unfold ret. by rewrite app_nil_r.
  - simpl include_refs. rewrite of_kind_cons. unfold bind.
    destruct (Byte.eqb (typ kc.2) kind).
    + unfold WriteString. simpl. rewrite IH. by rewrite <- app_assoc.
    + unfold ret. apply IH.
Qed.

(** One group: written when the counter of its kind is positive. *)
Lemma reference_group_written kind name (counted : nat) (cs : list (string * citation)) o b :
  counted = length (of_kind kind cs) →
  (if 0 <? Z.of_nat counted then
     WriteString ("<references title=" +:+ dq +:+ name +:+ dq +:+ ">" +:+ nl) ;;
     include_refs kind cs ;;
     WriteString ("</references>" +:+ nl)
   else ret tt) (o, b)
  = Some (tt, (o, b ++ reference_group name (of_kind kind cs))).
Proof.
  intros ->. destruct (of_kind kind cs) as [|c cs'] eqn:Hcs.
  - simpl. unfold ret. by rewrite app_nil_r.
  - replace (0 <? Z.of_nat (length (c :: cs'))) with true
      by (symmetry; apply Z.ltb_lt; simpl; lia).
    unfold bind, WriteString. cbn [fst snd].
    rewrite include_refs_spec, Hcs. unfold reference_group.
    cbn [fst snd]. by rewrite <- !app_assoc.
Qed.

Lemma References_spec (citations : gmap string citation) o b :
  standalone o → sectionLevel o <= GoInt.int_max →
  Z.of_nat (size citations) <= GoInt.int_max →
  References citations true (o, b)
  = Some (tt, (with_docLevel DOC_BACK_MATTER (drained o),
               b ++ section_closes (Z.to_nat (sectionLevel o))
                 ++ to_back (docLevel o)
                 ++ reference_group "Informative References" (of_kind "i" (range 1 citations))
                 ++ reference_group "Normative References" (of_kind "n" (range 2 citations)))).
Proof.
  intros Hs Hk Hsize.
  assert (∀ n, length (range n citations) = size citations) as Hlen.
  { intros n. rewrite (Permutation_length (range_perm n citations)).
    apply length_map_to_list. }
  assert (∀ kind n, length (of_kind kind (range 0 citations))
                    = length (of_kind kind (range n citations))) as Hsame.
  { intros kind n. apply Permutation_length.
    by rewrite !of_kind_range. }
  set (o1 := drained o).
  assert (docLevel o1 = docLevel o) as Hdl.
  { unfold o1, drained. by case_decide. }
  set (b1 := b ++ section_closes (Z.to_nat (sectionLevel o))).
  assert (∀ w, (modify (with_docLevel DOC_BACK_MATTER) ;;
                let n := count_refs (range 0 citations) in
                if 0 <? GoInt.add n.1 n.2 then
                  (if 0 <? n.1 then
                     WriteString ("<references title=" +:+ dq +:+ "Informative References"
                                    +:+ dq +:+ ">" +:+ nl) ;;
                     include_refs "i" (range 1 citations) ;;
                     WriteString ("</references>" +:+ nl)
                   else ret tt) ;;
                  (if 0 <? n.2 then
                     WriteString ("<references title=" +:+ dq +:+ "Normative References"
                                    +:+ dq +:+ ">" +:+ nl) ;;
                     include_refs "n" (range 2 citations) ;;
                     WriteString ("</references>" +:+ nl)
                   else ret tt)
                else ret tt) w
               = Some (tt, (with_docLevel DOC_BACK_MATTER w.1,
                            w.2 ++ reference_group "Informative References"
                                     (of_kind "i" (range 1 citations))
                                ++ reference_group "Normative References"
                                     (of_kind "n" (range 2 citations))))) as Hgroups.
  { intros [o2 b2]. unfold bind at 1. unfold modify. cbn [fst snd].
    rewrite count_refs_spec by (rewrite Hlen; lia). cbv zeta. cbn [fst snd].
    pose proof (of_kind_disjoint (range 0 citations)) as Hdisj. rewrite Hlen in Hdisj.
    rewrite GoInt.add_small
      by (unfold GoInt.is_int, GoInt.int_min, GoInt.int_max in *; lia).
    destruct (Z.ltb_spec 0 (Z.of_nat (length (of_kind "i" (range 0 citations)))
                            + Z.of_nat (length (of_kind "n" (range 0 citations)))))
      as [Hsome|Hnone].
    - unfold bind at 1.
      rewrite (reference_group_written "i" _ _ (range 1 citations)) by apply Hsame.
      rewrite (reference_group_written "n" _ _ (range 2 citations)) by apply Hsame.
      by rewrite <- app_assoc.
    - assert (of_kind "i" (range 1 citations) = []) as ->.
      { apply length_zero_iff_nil. rewrite <- Hsame. lia. }
      assert (of_kind "n" (range 2 citations) = []) as ->.
      { apply length_zero_iff_nil. rewrite <- Hsame. lia. }
      unfold ret. simpl. by rewrite !app_nil_r. }
  assert ((if docLevel o =? DOC_FRONT_MATTER then
             WriteString ("</front>" +:+ nl) ;; WriteString ("<back>" +:+ nl)
           else if docLevel o =? DOC_MAIN_MATTER then
             WriteString ("</middle>" +:+ nl) ;; WriteString ("<back>" +:+ nl)
           else if docLevel o =? DOC_BACK_MATTER then ret tt
           else ret tt) (o1, b1)
          = Some (tt, (o1, b1 ++ to_back (docLevel o)))) as Htrans.
  { unfold to_back, back_transition, bind, WriteString, ret. cbn [fst snd].
    destruct (Z.eqb_spec (docLevel o) DOC_FRONT_MATTER) as [Hf|Hf].
    - rewrite decide_True by done. by rewrite <- app_assoc.
    - rewrite decide_False by done.
      destruct (Z.eqb_spec (docLevel o) DOC_MAIN_MATTER) as [Hm|Hm].
      + rewrite decide_True by done. by rewrite <- app_assoc.
      + rewrite decide_False by done. rewrite app_nil_r.
        by destruct (docLevel o =? DOC_BACK_MATTER). }
  unfold References.
  rewrite (bind_Some (get flags) _ (o, b) (flags o) (o, b)) by reflexivity.
  rewrite (standalone_test _ Hs). cbn [negb orb].
  rewrite (bind_Some (get sectionLevel) _ (o, b) (sectionLevel o) (o, b)) by reflexivity.
  rewrite (bind_Some _ _ _ _ _ (drain_sections o b Hk)). fold o1 b1.
  rewrite (bind_Some (get docLevel) _ (o1, b1) (docLevel o1) (o1, b1)) by reflexivity.
  rewrite Hdl. rewrite (bind_Some _ _ _ _ _ Htrans).
  rewrite Hgroups. cbn [fst snd]. unfold b1. by rewrite <- !app_assoc.
Qed.

Lemma to_back_matter (p : Matter) : to_back (matter_code p) = back_transition p.
Proof.
  destruct DOC_ne as (Hfm & Hfb & Hmb). unfold to_back.
  destruct p; simpl; repeat case_decide; congruence.
Qed.

(** C6: in standalone mode [References], called with [first] true at depth
    [sectionLevel = k] in the division [p], appends the [k] closing section
    tags that [DocumentFooter] appends in the same state, then closes [p] and
    opens the back matter, nothing of the two when [p] is the back matter
    already, and only then the reference groups; it leaves [sectionLevel] at 0
    and [docLevel] at [DOC_BACK_MATTER]. *)
Theorem References_drains_sections_then_opens_back
    (p : Matter) (k : Z) (citations : gmap string citation) o b :
  standalone o → sectionLevel o = k → 0 <= k <= GoInt.int_max →
  docLevel o = matter_code p →
  Z.of_nat (size citations) <= GoInt.int_max →
  References citations true (o, b)
  = Some (tt, (with_docLevel DOC_BACK_MATTER (with_sectionLevel 0 o),
               b ++ section_closes (Z.to_nat k)
                 ++ back_transition p
                 ++ reference_group "Informative References" (of_kind "i" (range 1 citations))
                 ++ reference_group "Normative References" (of_kind "n" (range 2 citations))))
  ∧ DocumentFooter true (o, b)
    = Some (tt, (with_sectionLevel 0 o,
                 b ++ section_closes (Z.to_nat k)
                   ++ matter_close p ++ bytes ("</rfc>" +:+ nl))).
Proof.
  intros Hs <- Hk Hp Hsize. split; [|by apply DocumentFooter_spec].
  rewrite References_spec by (done || lia).
  by rewrite drained_nonneg, Hp, to_back_matter by lia.
Qed.

Lemma include_file_spec (c : citation) :
  include_file c
  = if decide (filename c = []) then referenceFile c
    else string_of_list_byte (filename c).
Proof.
  unfold include_file. destruct (filename c) as [|x f]; [reflexivity|].
  rewrite decide_False by done. reflexivity.
Qed.

(** C7: in standalone mode [References], called with [first] true, ends its
    output with the group of the informative citations followed by the group
    of the normative citations. Each group holds one inclusion for each
    citation of its kind in the map, in the order the runtime visits them; a
    kind without citation has no group, not even its container; and the file
    of an inclusion is the file name of the citation when that is not empty,
    otherwise what [referenceFile] derives. *)
Theorem References_groups_by_kind (citations : gmap string citation) o b :
  standalone o → sectionLevel o <= GoInt.int_max →
  Z.of_nat (size citations) <= GoInt.int_max →
  References citations true (o, b)
  = Some (tt, (with_docLevel DOC_BACK_MATTER (drained o),
               (b ++ section_closes (Z.to_nat (sectionLevel o)) ++ to_back (docLevel o))
                 ++ reference_group "Informative References" (of_kind "i" (range 1 citations))
                 ++ reference_group "Normative References" (of_kind "n" (range 2 citations))))
  ∧ of_kind "i" (range 1 citations) ≡ₚ of_kind "i" (map_to_list citations)
  ∧ of_kind "n" (range 2 citations) ≡ₚ of_kind "n" (map_to_list citations)
  ∧ (of_kind "i" (map_to_list citations) = [] →
     reference_group "Informative References" (of_kind "i" (range 1 citations)) = [])
  ∧ (of_kind "n" (map_to_list citations) = [] →
     reference_group "Normative References" (of_kind "n" (range 2 citations)) = [])
  ∧ (∀ c, include_line c
          = bytes (tab +:+ "<xi:include href=" +:+ dq
                     +:+ (if decide (filename c = []) then referenceFile c
                          else string_of_list_byte (filename c))
                     +:+ dq +:+ "/>" +:+ nl)).
Proof.
  intros Hs Hk Hsize. repeat split.
  - rewrite References_spec by done. by rewrite <- !app_assoc.
  - apply of_kind_range.
  - apply of_kind_range.
  - intros Hnone. pose proof (of_kind_range "i" 1 citations) as Hp.
    rewrite Hnone in Hp. by apply Permutation_nil_r in Hp as ->.
  - intros Hnone. pose proof (of_kind_range "n" 2 citations) as Hp.
    rewrite Hnone in Hp. by apply Permutation_nil_r in Hp as ->.
  - intros c. unfold include_line. by rewrite include_file_spec.
Qed.

(** ** The block and inline emitters

    More declarations of the package from other files: [renderIAL], which
    renders the pending attributes; the list, table and link flags;
    [words2119], the set of RFC 2119 keywords, a map of which only the keys
    are read; [convertEntity], which writes a text to the buffer it is given
    (it does not see the renderer) and may panic; the fields of [title] and of
    its authors; and [Date.Year()], [Date.Month()], [Date.Day()] and
    [time.Month(m).String()] of package [time]. *)
Variable renderIAL : list IAL -> string.
Variables LIST_TYPE_TERM TABLE_ALIGNMENT_LEFT TABLE_ALIGNMENT_RIGHT LINK_TYPE_EMAIL : Z.
Variable words2119 : gmap string bool.
Variable convertEntity : list byte -> list byte -> option (list byte).
Variable author : Type.
Variables Ipr Category DocName Abbrev Title Area Workgroup : title -> string.
Variable Keyword : title -> list string.
Variable Author : title -> list author.
Variables Initials Surname Fullname Role Ascii : author -> string.
Variables Date_Year Date_Month Date_Day : title -> Z.
Variable Month_String : Z -> string.

Definition with_titleBlock (v : option title) (o : Xml2) : Xml2 :=
  {| flags := flags o; sectionLevel := sectionLevel o; docLevel := docLevel o;
     ial := ial o; titleBlock := v |}.

(** render code chunks using verbatim, or listings if we have a language *)
Definition BlockCode (text : list byte) (lang : string) : M unit :=
  i ← GetAndResetIAL;
  let s := renderIAL i in
  (if String.eqb lang ""
   then WriteString ("<sourcecode" +:+ s +:+ ">" +:+ nl)
   else WriteString (nl +:+ "<sourcecode" +:+ s +:+ "type=" +:+ dq +:+ lang +:+ dq
                       +:+ ">" +:+ nl)) ;;
  Write text ;;
  (if String.eqb lang ""
   then WriteString ("</sourcecode>" +:+ nl)
   else WriteString ("</sourcecode>" +:+ nl)).

Definition TitleBlock (text : list byte) : M unit := ret tt.

(** [for _, k := range options.titleBlock.Keyword { ... }] *)
Fixpoint write_keywords (ks : list string) : M unit :=
  match ks with
  | [] => ret tt
  | k :: ks' => WriteString ("<keyword>" +:+ k +:+ "</keyword>" +:+ nl) ;; write_keywords ks'
  end.

(** [for _, a := range options.titleBlock.Author { ... }] *)
Fixpoint write_authors (authors : list author) : M unit :=
  match authors with
  | [] => ret tt
  | a :: authors' =>
      WriteString ("<author>" +:+ nl) ;;
      WriteString ("<initials>" +:+ Initials a +:+ "</initials>" +:+ nl) ;;
      WriteString ("<surname>" +:+ Surname a +:+ "</surname>" +:+ nl) ;;
      WriteString ("<fullname>" +:+ Fullname a +:+ "</fullname>" +:+ nl) ;;
      WriteString ("<role>" +:+ Role a +:+ "</role>" +:+ nl) ;;
      WriteString ("<ascii>" +:+ Ascii a +:+ "</ascii>" +:+ nl) ;;
      WriteString ("</author>" +:+ nl) ;;
      write_authors authors'
  end.

Definition TitleBlockTOML (block : title) : M unit :=
  fl ← get flags;
  if GoInt.and fl XML_STANDALONE =? 0 then ret tt
  else
    modify (with_titleBlock (Some block)) ;;
    WriteString ("<rfc xmlns:xi=" +:+ dq +:+ "http://www.w3.org/2001/XInclude" +:+ dq
                   +:+ " ipr=" +:+ dq +:+ Ipr block +:+ dq
                   +:+ " category=" +:+ dq +:+ Category block +:+ dq
                   +:+ " docName=" +:+ dq +:+ DocName block +:+ dq +:+ ">" +:+ nl) ;;
    WriteString ("<front>" +:+ nl) ;;
    WriteString ("<title abbrev=" +:+ dq +:+ Abbrev block +:+ dq +:+ ">") ;;
    WriteString (Title block +:+ "</title>" +:+ nl +:+ nl) ;;
    let year := if 0 <? Date_Year block
                then " year=" +:+ dq +:+ Itoa (Date_Year block) +:+ dq else "" in
    let month := if 0 <? Date_Month block
                 then " month=" +:+ dq +:+ Month_String (Date_Month block) +:+ dq else "" in
    let day := if 0 <? Date_Day block
               then " day=" +:+ dq +:+ Itoa (Date_Day block) +:+ dq else "" in
    WriteString ("<date" +:+ year +:+ month +:+ day +:+ "/>" +:+ nl +:+ nl) ;;
    WriteString ("<area>" +:+ Area block +:+ "</area>" +:+ nl) ;;
    WriteString ("<workgroup>" +:+ Workgroup block +:+ "</workgroup>" +:+ nl) ;;
    write_keywords (Keyword block) ;;
    write_authors (Author block) ;;
    (* Author information *)
    WriteString nl.

Definition BlockQuote (text : list byte) : M unit :=
  i ← GetAndResetIAL;
  let s := renderIAL i in
  WriteString ("<blockquote" +:+ s +:+ ">" +:+ nl) ;;
  Write text ;;
  WriteString ("</blockquote>" +:+ nl).

Definition Abstract (text : list byte) : M unit :=
  WriteString ("<abstract>" +:+ nl) ;; Write text ;; WriteString ("</abstract>" +:+ nl).

Definition Aside (text : list byte) : M unit :=
  WriteString ("<aside>" +:+ nl) ;; Write text ;; WriteString ("</aside>" +:+ nl).

Definition Note (text : list byte) : M unit :=
  WriteString ("<note>" +:+ nl) ;; Write text ;; WriteString ("</note>" +:+ nl).

Definition Figure (text : list byte) : M unit :=
  WriteString ("<figure>" +:+ nl) ;; Write text ;; WriteString ("</figure>" +:+ nl).

Definition BlockHtml (text : list byte) : M unit :=
  (* a pretty lame thing to do... *)
  WriteString (nl +:+ bsl +:+ "begin{verbatim}" +:+ nl) ;;
  Write text ;;
  WriteString (nl +:+ bsl +:+ "end{verbatim}" +:+ nl).

Definition HRule : M unit := ret tt.

Definition ListItem (text : list byte) (flags : Z) : M unit :=
  if negb (GoInt.and flags LIST_TYPE_DEFINITION =? 0) && (GoInt.and flags LIST_TYPE_TERM =? 0)
  then WriteString "<dd>" ;; Write text ;; WriteString ("</dd>" +:+ nl)
  else if negb (GoInt.and flags LIST_TYPE_TERM =? 0)
  then WriteString "<dt>" ;; Write text ;; WriteString ("</dt>" +:+ nl)
  else WriteString "<li>" ;; Write text ;; WriteString ("</li>" +:+ nl).

Definition Tables (text : list byte) : M unit := ret tt.

Definition Table (header body : list byte) (columnData : list Z) (table : bool) : M unit :=
  WriteString ("<table>" +:+ nl +:+ "<thead>" +:+ nl) ;;
  Write header ;;
  WriteString ("</thead>" +:+ nl) ;;
  Write body ;;
  WriteString ("</table>" +:+ nl).

Definition TableRow (text : list byte) : M unit :=
  WriteString "<tr>" ;; Write text ;; WriteString ("</tr>" +:+ nl).

Definition TableHeaderCell (text : list byte) (align : Z) : M unit :=
  let a := if align =? TABLE_ALIGNMENT_LEFT then " align=" +:+ dq +:+ "left" +:+ dq
           else if align =? TABLE_ALIGNMENT_RIGHT then " align=" +:+ dq +:+ "right" +:+ dq
           else " align=" +:+ dq +:+ "center" +:+ dq in
  WriteString ("<th" +:+ a +:+ ">") ;;
  Write text ;;
  WriteString "</th>".

Definition TableCell (text : list byte) (align : Z) : M unit :=
  WriteString "<td>" ;; Write text ;; WriteString "</td>".

Definition Footnotes (text : M bool) : M unit := ret tt.
Definition FootnoteItem (name text : list byte) (flags : Z) : M unit := ret tt.

Definition Index (primary secondary : list byte) : M unit :=
  WriteString ("<iref item=" +:+ dq +:+ string_of_list_byte primary +:+ dq) ;;
  WriteString (" subitem=" +:+ dq +:+ string_of_list_byte secondary +:+ dq +:+ "/>").

Definition Citation (link title' : list byte) : M unit :=
  WriteString ("<xref target=" +:+ dq +:+ string_of_list_byte link +:+ dq +:+ "/>").

Definition AutoLink (link : list byte) (kind : Z) : M unit :=
  WriteString (bsl +:+ "href{") ;;
  (if kind =? LINK_TYPE_EMAIL then WriteString "mailto:" else ret tt) ;;
  Write link ;;
  WriteString "}{" ;;
  Write link ;;
  WriteString "}".

Definition CodeSpan (text : list byte) : M unit :=
  WriteString "<tt>" ;;
  (fun w => match convertEntity text w.2 with
            | Some out => Some (tt, (w.1, out))
            | None => None
            end) ;;
  WriteString "</tt>".

Definition DoubleEmphasis (text : list byte) : M unit :=
  (* Check for 2119 Keywords *)
  let s := string_of_list_byte text in
  match words2119 !! s with
  | Some _ =>
      WriteString "<bcp14>" ;; Write text ;; WriteString "</bcp14>"
  | None =>
      WriteString "<strong>" ;; Write text ;; WriteString "</strong>"
  end.

Definition Emphasis (text : list byte) : M unit :=
  WriteString "<em>" ;; Write text ;; WriteString "</em>".

Definition LineBreak : M unit := WriteString (nl +:+ "<vspace/>" +:+ nl).

Definition Link (link title' content : list byte) : M unit :=
  WriteString (bsl +:+ "href{") ;;
  Write link ;;
  WriteString "}{" ;;
  Write content ;;
  WriteString "}".

Definition RawHtmlTag (tag : list byte) : M unit := ret tt.

Definition TripleEmphasis (text : list byte) : M unit :=
  WriteString "<strong><em>" ;; Write text ;; WriteString "</em></strong>".

Definition StrikeThrough (text : list byte) : M unit := Write text.

Definition FootnoteRef (ref : list byte) (id : Z) : M unit := ret tt.

Definition Entity (entity : list byte) : M unit := Write entity.

Definition NormalText (text : list byte) : M unit := Write text.

(** ** More vocabulary *)

(** A computation that never panics, keeps what the buffer holds already and
    keeps the flags of the renderer. *)
Definition extends {A} (m : M A) : Prop :=
  ∀ o b, ∃ a o' t, m (o, b) = Some (a, (o', b ++ t)) ∧ flags o' = flags o.

(** An emitter that writes the same bytes [w] wherever it is called and
    leaves the renderer alone. *)
Definition emits (m : M unit) (w : list byte) : Prop :=
  ∀ o b, m (o, b) = Some (tt, (o, b ++ w)).

(** A title callback that appends [t] and reports [produced]. *)
Definition titled (t : list byte) (produced : bool) : M bool :=
  fun w => Some (produced, (w.1, w.2 ++ t)).

(** ** Computations that extend the buffer *)

Lemma extends_ret {A} (a : A) : extends (ret a).
Proof. intros o b. exists a, o, []. by rewrite app_nil_r. Qed.

Lemma extends_bind {A B} (m : M A) (k : A → M B) :
  extends m → (∀ a, extends (k a)) → extends (bind m k).
Proof.
  intros Hm Hk o b. destruct (Hm o b) as (a & o1 & t1 & Hrun & Hfl).
  destruct (Hk a o1 (b ++ t1)) as (r & o2 & t2 & Hrun' & Hfl').
  exists r, o2, (t1 ++ t2). rewrite (bind_Some _ _ _ _ _ Hrun), Hrun', app_assoc.
  split; [reflexivity | congruence].
Qed.

Lemma extends_WriteString s : extends (WriteString s).
Proof. intros o b. by exists tt, o, (bytes s). Qed.

Lemma extends_Write p : extends (Write p).
Proof. intros o b. by exists tt, o, p. Qed.

Lemma extends_get {A} (field : Xml2 → A) : extends (get field).
Proof. intros o b. exists (field o), o, []. by rewrite app_nil_r. Qed.

Lemma extends_modify (f : Xml2 → Xml2) :
  (∀ o, flags (f o) = flags o) → extends (modify f).
Proof. intros Hf o b. exists tt, (f o), []. by rewrite app_nil_r. Qed.

Lemma extends_Len : extends Len.
Proof. intros o b. exists (Z.of_nat (length b)), o, []. by rewrite app_nil_r. Qed.

Lemma extends_close_previous i : extends (close_previous i).
Proof.
  remember (Z.to_nat i) as n eqn:Hn. revert i Hn.
  induction n as [n IH] using lt_wf_ind. intros i ->.
  rewrite close_previous_equation_1. destruct (Z_lt_dec 0 i) as [Hpos|Hneg]; simpl.
  - apply extends_bind; [apply extends_WriteString|]. intros _.
    exact (IH _ (GoInt.sub_1_lt i Hpos) _ eq_refl).
  - apply extends_ret.
Qed.

Lemma extends_close_open_sections i : extends (close_open_sections i).
Proof.
  remember (Z.to_nat i) as n eqn:Hn. revert i Hn.
  induction n as [n IH] using lt_wf_ind. intros i ->.
  rewrite close_open_sections_equation_1. destruct (Z_lt_dec 0 i) as [Hpos|Hneg]; simpl.
  - apply extends_bind; [apply extends_WriteString|]. intros _.
    apply extends_bind; [by apply extends_modify|]. intros _.
    exact (IH _ (GoInt.sub_1_lt i Hpos) _ eq_refl).
  - apply extends_ret.
Qed.

Lemma extends_include_refs kind cs : extends (include_refs kind cs).
Proof.
  intros o b. rewrite include_refs_spec. by eexists tt, o, _.
Qed.

Lemma extends_write_keywords ks : extends (write_keywords ks).
Proof.
  induction ks as [|k ks IH]; simpl; [apply extends_ret|].
  apply extends_bind; [apply extends_WriteString | intros _; exact IH].
Qed.

Lemma extends_write_authors authors : extends (write_authors authors).
Proof.
  induction authors as [|a authors IH]; simpl; [apply extends_ret|].
  repeat (apply extends_bind; [apply extends_WriteString | intros _]). exact IH.
Qed.

(** Steps through a computation built from the operations above. *)
Ltac extends_step :=
  first
    [ apply extends_ret
    | apply extends_WriteString
    | apply extends_Write
    | apply extends_Len
    | apply extends_get
    | apply extends_close_previous
    | apply extends_close_open_sections
    | apply extends_include_refs
    | apply extends_write_keywords
    | apply extends_write_authors
    | apply extends_modify; intros ?; reflexivity
    | apply extends_bind; [|intros ?]
    | match goal with |- extends (if ?c then _ else _) => destruct c end
    | match goal with |- extends (let _ := _ in _) => cbv zeta end ].

(** X1: [SetIAL] appends to the pending attributes, [GetAndResetIAL] returns
    all of them in the order they came and leaves none: a second
    [GetAndResetIAL] returns the empty list. The buffer is not touched. *)
Theorem IAL_accumulate_then_consume (i j : list IAL) o b :
  (SetIAL i ;; SetIAL j ;;
   pending ← GetAndResetIAL; again ← GetAndResetIAL; ret (pending, again)) (o, b)
  = Some ((ial o ++ i ++ j, []), (with_ial [] o, b)).
Proof.
  unfold SetIAL, GetAndResetIAL, bind, get, modify, ret, with_ial. simpl.
  by rewrite <- app_assoc.
Qed.

Lemma BlockQuote_spec (text : list byte) o b :
  BlockQuote text (o, b)
  = Some (tt, (with_ial [] o,
               b ++ bytes ("<blockquote" +:+ renderIAL (ial o) +:+ ">" +:+ nl)
                 ++ text ++ bytes ("</blockquote>" +:+ nl))).
Proof.
  unfold BlockQuote, GetAndResetIAL, bind, get, modify, ret, WriteString, Write. simpl.
  by rewrite <- !app_assoc.
Qed.

Lemma BlockCode_spec (text : list byte) (lang : string) o b :
  BlockCode text lang (o, b)
  = Some (tt, (with_ial [] o,
               b ++ bytes (if decide (lang = "")
                           then "<sourcecode" +:+ renderIAL (ial o) +:+ ">" +:+ nl
                           else nl +:+ "<sourcecode" +:+ renderIAL (ial o) +:+ "type="
                                  +:+ dq +:+ lang +:+ dq +:+ ">" +:+ nl)
                 ++ text ++ bytes ("</sourcecode>" +:+ nl))).
Proof.
  unfold BlockCode, GetAndResetIAL, bind, get, modify, ret, WriteString, Write. simpl.
  destruct (String.eqb_spec lang "") as [->|Hlang].
  - rewrite decide_True by done. simpl. by rewrite <- !app_assoc.
  - rewrite decide_False by done. simpl. by rewrite <- !app_assoc.
Qed.

(** X2: the pending attributes go to one block only. After [SetIAL i] a code
    block carries the attributes pending before together with [i], and the
    block quote that follows carries those of the empty list; afterwards none
    is pending. *)
Theorem pending_attributes_consumed_once
    (i : list IAL) (code quoted : list byte) (lang : string) o b :
  (SetIAL i ;; BlockCode code lang ;; BlockQuote quoted) (o, b)
  = Some (tt, (with_ial [] o,
               b ++ bytes (if decide (lang = "")
                           then "<sourcecode" +:+ renderIAL (ial o ++ i) +:+ ">" +:+ nl
                           else nl +:+ "<sourcecode" +:+ renderIAL (ial o ++ i) +:+ "type="
                                  +:+ dq +:+ lang +:+ dq +:+ ">" +:+ nl)
                 ++ code ++ bytes ("</sourcecode>" +:+ nl)
                 ++ bytes ("<blockquote" +:+ renderIAL [] +:+ ">" +:+ nl)
                 ++ quoted ++ bytes ("</blockquote>" +:+ nl))).
Proof.
  rewrite (bind_Some (SetIAL i) _ (o, b) tt (with_ial (ial o ++ i) o, b)) by reflexivity.
  rewrite (bind_Some _ _ _ _ _ (BlockCode_spec code lang _ _)).
  rewrite BlockQuote_spec. simpl. by rewrite <- !app_assoc.
Qed.

(** X3: a handler that is given code to run neither panics, nor loses or
    changes a byte the buffer holds, nor changes the flags, as long as that
    code does not: [Header], [List] and [Paragraph] with their callback (the
    marker [List] and [Paragraph] truncate to is never beyond the buffer), and
    [CodeSpan] with [convertEntity]. *)
Theorem callback_handlers_extend
    (text : M bool) (level : Z) (id : string) (quote : bool) (flags start : Z)
    (code : list byte) :
  extends text →
  extends (Header text level id quote)
  ∧ extends (List text flags start)
  ∧ extends (Paragraph text)
  ∧ ((∀ out, ∃ t, convertEntity code out = Some (out ++ t)) → extends (CodeSpan code)).
Proof.
  intros Htext. repeat split.
  - unfold Header. repeat (extends_step || exact Htext).
  - intros o b. rewrite List_writes_open_tag.
    destruct (Htext o (b ++ list_open_tag flags start)) as (r & o' & t & -> & Hfl).
    destruct r.
    + assert (∀ s, ∃ t', WriteString s (o', (b ++ list_open_tag flags start) ++ t)
                         = Some (tt, (o', b ++ t'))) as Hclose.
      { intros s. eexists. unfold WriteString. simpl. by rewrite <- !app_assoc. }
      destruct (negb _); [|destruct (negb _)];
        edestruct Hclose as [t' ->]; exists tt, o', t'; (split; [reflexivity | exact Hfl]).
    + rewrite <- app_assoc, Truncate_back. exists tt, o', []. rewrite app_nil_r.
      split; [reflexivity | exact Hfl].
  - intros o b. unfold Paragraph.
    rewrite (bind_Some Len _ (o, b) (Z.of_nat (length b)) (o, b)) by reflexivity.
    rewrite (bind_Some (WriteString "<t>") _ (o, b) tt (o, b ++ bytes "<t>")) by reflexivity.
    destruct (Htext o (b ++ bytes "<t>")) as (r & o' & t & Hrun & Hfl).
    rewrite (bind_Some _ _ _ _ _ Hrun). destruct r; simpl.
    + exists tt, o', (bytes "<t>" ++ t ++ bytes ("</t>" +:+ nl)).
      unfold WriteString. simpl. rewrite <- !app_assoc.
      split; [reflexivity | exact Hfl].
    + rewrite <- app_assoc, Truncate_back. exists tt, o', []. rewrite app_nil_r.
      split; [reflexivity | exact Hfl].
  - intros Hconv o b. unfold CodeSpan, bind, WriteString. simpl.
    destruct (Hconv (b ++ bytes "<tt>")) as [t ->].
    exists tt, o, (bytes "<tt>" ++ t ++ bytes "</tt>"). simpl. rewrite <- !app_assoc.
    split; reflexivity.
Qed.


Lemma emits_ret : emits (ret tt) [].
Proof. intros o b. unfold ret. by rewrite app_nil_r. Qed.

Lemma emits_WriteString s : emits (WriteString s) (bytes s).
Proof. by intros o b. Qed.

Lemma emits_Write p : emits (Write p) p.
Proof. by intros o b. Qed.

Lemma emits_seq (m k : M unit) w1 w2 :
  emits m w1 → emits k w2 → emits (m ;; k) (w1 ++ w2).
Proof.
  intros Hm Hk o b. rewrite (bind_Some _ _ _ _ _ (Hm o b)), Hk. by rewrite app_assoc.
Qed.

(** Closes a goal [∃ w, emits m w] once the conditions [m] tests are decided. *)
Ltac emits_done :=
  eexists;
  repeat first [ apply emits_WriteString | apply emits_Write | apply emits_ret
               | eapply emits_seq ].

(** X5: the block and inline emitters are stateless. What each of them
    appends depends on its arguments only, not on the renderer or on the
    buffer; it leaves the renderer as it is and never panics. The handlers
    marked as not used append nothing, and [Footnotes] does not run its
    callback. *)
Theorem emitters_stateless :
  (∀ text, ∃ w, emits (Abstract text) w)
  ∧ (∀ text, ∃ w, emits (Aside text) w)
  ∧ (∀ text, ∃ w, emits (Note text) w)
  ∧ (∀ text, ∃ w, emits (Figure text) w)
  ∧ (∀ text, ∃ w, emits (BlockHtml text) w)
  ∧ (∀ text flags, ∃ w, emits (ListItem text flags) w)
  ∧ (∀ header body columnData table, ∃ w, emits (Table header body columnData table) w)
  ∧ (∀ text, ∃ w, emits (TableRow text) w)
  ∧ (∀ text align, ∃ w, emits (TableHeaderCell text align) w)
  ∧ (∀ text align, ∃ w, emits (TableCell text align) w)
  ∧ (∀ primary secondary, ∃ w, emits (Index primary secondary) w)
  ∧ (∀ link title', ∃ w, emits (Citation link title') w)
  ∧ (∀ link kind, ∃ w, emits (AutoLink link kind) w)
  ∧ (∀ text, ∃ w, emits (DoubleEmphasis text) w)
  ∧ (∀ text, ∃ w, emits (Emphasis text) w)
  ∧ (∀ link title' alt, ∃ w, emits (Image link title' alt) w)
  ∧ (∃ w, emits LineBreak w)
  ∧ (∀ link title' content, ∃ w, emits (Link link title' content) w)
  ∧ (∀ text, ∃ w, emits (TripleEmphasis text) w)
  ∧ (∀ text, emits (StrikeThrough text) text)
  ∧ (∀ entity, emits (Entity entity) entity)
  ∧ (∀ text, emits (NormalText text) text)
  ∧ (∀ text, emits (TitleBlock text) [])
  ∧ emits HRule []
  ∧ (∀ text, emits (Tables text) [])
  ∧ (∀ text : M bool, emits (Footnotes text) [])
  ∧ (∀ name text flags, emits (FootnoteItem name text flags) [])
  ∧ (∀ tag, emits (RawHtmlTag tag) [])
  ∧ (∀ ref id, emits (FootnoteRef ref id) []).
Proof.
  repeat apply conj; intros;
    try (by apply emits_Write); try (by apply emits_ret).
  - unfold Abstract. emits_done.
  - unfold Aside. emits_done.
  - unfold Note. emits_done.
  - unfold Figure. emits_done.
  - unfold BlockHtml. emits_done.
  - unfold ListItem. destruct (_ && _); [|destruct (negb _)]; emits_done.
  - unfold Table. emits_done.
  - unfold TableRow. emits_done.
  - unfold TableHeaderCell. emits_done.
  - unfold TableCell. emits_done.
  - unfold Index. emits_done.
  - unfold Citation. emits_done.
  - unfold AutoLink. destruct (_ =? _); emits_done.
  - unfold DoubleEmphasis. cbv zeta. destruct (_ !! _); emits_done.
  - unfold Emphasis. emits_done.
  - unfold Image. destruct (_ || _); emits_done.
  - unfold LineBreak. emits_done.
  - unfold Link. emits_done.
  - unfold TripleEmphasis. emits_done.
Qed.

Lemma string_app_assoc (s t u : string) : (s +:+ t) +:+ u = s +:+ t +:+ u.
Proof.
  induction s as [|c s IH]; [reflexivity|].
  change (String c ((s +:+ t) +:+ u) = String c (s +:+ t +:+ u)). by rewrite IH.
Qed.

(** The element a list of the given flags is, and its attributes. *)
Definition list_element (flags : Z) : string :=
  if decide (GoInt.and flags LIST_TYPE_ORDERED = 0) then
    if decide (GoInt.and flags LIST_TYPE_DEFINITION = 0) then "ul" else "dl"
  else "ol".

Definition list_attributes (flags start : Z) : string :=
  if decide (GoInt.and flags LIST_TYPE_ORDERED ≠ 0 ∧ 1 < start)
  then " start=" +:+ dq +:+ Itoa start +:+ dq else "".

(** The second [switch] of [List] names the element the first one opened. *)
Lemma list_tags_match (flags start : Z) :
  list_open_tag flags start
  = bytes ("<" +:+ list_element flags +:+ list_attributes flags start +:+ ">" +:+ nl)
  ∧ (if negb (GoInt.and flags LIST_TYPE_ORDERED =? 0) then "</ol>" +:+ nl
     else if negb (GoInt.and flags LIST_TYPE_DEFINITION =? 0) then "</dl>" +:+ nl
     else "</ul>" +:+ nl) = "</" +:+ list_element flags +:+ ">" +:+ nl.
Proof.
  unfold list_open_tag, list_element, list_attributes.
  destruct (decide (GoInt.and flags LIST_TYPE_ORDERED = 0)) as [Ho|Ho].
  - rewrite (proj2 (Z.eqb_eq _ _) Ho). cbn [negb].
    destruct (decide (_ ∧ _)) as [[Hne _]|_]; [contradiction|].
    destruct (decide (GoInt.and flags LIST_TYPE_DEFINITION = 0)) as [Hd|Hd].
    + rewrite (proj2 (Z.eqb_eq _ _) Hd). split; reflexivity.
    + rewrite (proj2 (Z.eqb_neq _ _) Hd). split; reflexivity.
  - rewrite (proj2 (Z.eqb_neq _ _) Ho). cbn [negb].
    destruct (decide (start <= 1)) as [Hs|Hs];
      destruct (decide (_ ∧ _)) as [[_ Hlt]|Hn]; try lia.
    + split; reflexivity.
    + split; [by rewrite !string_app_assoc | reflexivity].
Qed.

(** X6: when its callback reports content, [List] closes the element it
    opened. The list is the opening tag with the attributes, what the
    callback leaves, and the closing tag of the same element: [ol] when the
    ordered flag is set, whatever the definition flag, otherwise [dl] when the
    definition flag is set, otherwise [ul]; the only attribute is the start of
    an ordered list, written when it is above 1. *)
Theorem List_closes_what_it_opened (text : M bool) (flags start : Z) o b o' b' :
  text (o, b ++ bytes ("<" +:+ list_element flags +:+ list_attributes flags start
                         +:+ ">" +:+ nl))
  = Some (true, (o', b')) →
  List text flags start (o, b)
  = Some (tt, (o', b' ++ bytes ("</" +:+ list_element flags +:+ ">" +:+ nl))).
Proof.
  destruct (list_tags_match flags start) as [Hopen Hclose].
  intros Htext. rewrite List_writes_open_tag, Hopen, Htext. rewrite <- Hclose.
  destruct (negb (GoInt.and flags LIST_TYPE_ORDERED =? 0));
    [|destruct (negb (GoInt.and flags LIST_TYPE_DEFINITION =? 0))]; reflexivity.
Qed.

(** X7: links. An image whose link starts with [http://] or [https://] is
    written as the link with the alt text as content; an autolink that is not
    an email address is written as the link with itself as content, and an
    email address gets [mailto:] in the target only. *)
Theorem Image_and_AutoLink_as_Link (link title' alt : list byte) (kind : Z) (w : World) :
  ((∃ rest, link = bytes "http://" ++ rest) ∨ (∃ rest, link = bytes "https://" ++ rest) →
   Image link title' alt w = Link link title' alt w)
  ∧ (kind ≠ LINK_TYPE_EMAIL → AutoLink link kind w = Link link title' link w)
  ∧ (kind = LINK_TYPE_EMAIL →
     AutoLink link kind w = Link (bytes "mailto:" ++ link) title' link w).
Proof.
  destruct w as [o b]. repeat apply conj.
  - intros Hscheme. unfold Image.
    assert (HasPrefix link (bytes "http://") || HasPrefix link (bytes "https://") = true) as ->.
    { apply orb_true_iff. rewrite !HasPrefix_spec. exact Hscheme. }
    reflexivity.
  - intros Hkind. unfold AutoLink, Link.
    destruct (Z.eqb_spec kind LINK_TYPE_EMAIL); [done|].
    unfold bind, WriteString, Write, ret. simpl. reflexivity.
  - intros ->. unfold AutoLink, Link. rewrite Z.eqb_refl.
    unfold bind, WriteString, Write, ret. simpl. by rewrite <- !app_assoc.
Qed.

(** The lines [TitleBlockTOML] writes for a keyword and for an author, and an
    attribute of the date, present when its value is positive. *)
Definition keyword_line (k : string) : list byte :=
  bytes ("<keyword>" +:+ k +:+ "</keyword>" +:+ nl).

Definition author_lines (a : author) : list byte :=
  bytes ("<author>" +:+ nl)
    ++ bytes ("<initials>" +:+ Initials a +:+ "</initials>" +:+ nl)
    ++ bytes ("<surname>" +:+ Surname a +:+ "</surname>" +:+ nl)
    ++ bytes ("<fullname>" +:+ Fullname a +:+ "</fullname>" +:+ nl)
    ++ bytes ("<role>" +:+ Role a +:+ "</role>" +:+ nl)
    ++ bytes ("<ascii>" +:+ Ascii a +:+ "</ascii>" +:+ nl)
    ++ bytes ("</author>" +:+ nl).

Definition date_attribute (name : string) (value : Z) (shown : string) : string :=
  if decide (0 < value) then " " +:+ name +:+ "=" +:+ dq +:+ shown +:+ dq else "".

Lemma write_keywords_spec ks : emits (write_keywords ks) (mjoin (keyword_line <$> ks)).
Proof.
  induction ks as [|k ks IH]; [apply emits_ret|].
  change (mjoin (keyword_line <$> k :: ks))
    with (keyword_line k ++ mjoin (keyword_line <$> ks)).
  cbn [write_keywords]. apply emits_seq; [apply emits_WriteString | exact IH].
Qed.

Lemma write_authors_spec authors :
  emits (write_authors authors) (mjoin (author_lines <$> authors)).
Proof.
  induction authors as [|a authors IH]; [apply emits_ret|].
  change (mjoin (author_lines <$> a :: authors))
    with (author_lines a ++ mjoin (author_lines <$> authors)).
  cbn [write_authors]. intros o b.
  repeat (rewrite (bind_Some (WriteString _) _ _ _ _ eq_refl); cbn [fst snd]).
  rewrite IH. unfold author_lines. by rewrite <- !app_assoc.
Qed.

(** X8: [TitleBlockTOML]. Without the standalone flag it writes nothing and
    does not keep the title block. With the flag it keeps the block and
    appends the [rfc] and [front] opening tags, the title, the date with the
    attributes whose value is positive, area and workgroup, one line for each
    keyword and seven for each author, in their order, and an empty line; it
    closes neither [front] nor [rfc]. *)
Theorem TitleBlockTOML_front_matter (block : title) o b :
  (GoInt.and (flags o) XML_STANDALONE = 0 → TitleBlockTOML block (o, b) = Some (tt, (o, b)))
  ∧ (standalone o →
     TitleBlockTOML block (o, b)
     = Some (tt, (with_titleBlock (Some block) o,
                  b ++ bytes ("<rfc xmlns:xi=" +:+ dq +:+ "http://www.w3.org/2001/XInclude"
                                +:+ dq +:+ " ipr=" +:+ dq +:+ Ipr block +:+ dq
                                +:+ " category=" +:+ dq +:+ Category block +:+ dq
                                +:+ " docName=" +:+ dq +:+ DocName block +:+ dq
                                +:+ ">" +:+ nl)
                    ++ bytes ("<front>" +:+ nl)
                    ++ bytes ("<title abbrev=" +:+ dq +:+ Abbrev block +:+ dq +:+ ">")
                    ++ bytes (Title block +:+ "</title>" +:+ nl +:+ nl)
                    ++ bytes ("<date"
                                +:+ date_attribute "year" (Date_Year block)
                                      (Itoa (Date_Year block))
                                +:+ date_attribute "month" (Date_Month block)
                                      (Month_String (Date_Month block))
                                +:+ date_attribute "day" (Date_Day block)
                                      (Itoa (Date_Day block))
                                +:+ "/>" +:+ nl +:+ nl)
                    ++ bytes ("<area>" +:+ Area block +:+ "</area>" +:+ nl)
                    ++ bytes ("<workgroup>" +:+ Workgroup block +:+ "</workgroup>" +:+ nl)
                    ++ mjoin (keyword_line <$> Keyword block)
                    ++ mjoin (author_lines <$> Author block)
                    ++ bytes nl))).
Proof.
  split.
  - intros Hoff. unfold TitleBlockTOML, bind, get. simpl. by rewrite Hoff.
  - intros Hs. unfold TitleBlockTOML.
    rewrite (bind_Some (get flags) _ (o, b) (flags o) (o, b)) by reflexivity.
    rewrite (standalone_test _ Hs).
    rewrite (bind_Some (modify _) _ _ _ _ eq_refl). cbn [fst snd].
    repeat (rewrite (bind_Some (WriteString _) _ _ _ _ eq_refl); cbn [fst snd]).
    cbv zeta.
    repeat (rewrite (bind_Some (WriteString _) _ _ _ _ eq_refl); cbn [fst snd]).
    rewrite (bind_Some _ _ _ _ _ (write_keywords_spec _ _ _)).
    rewrite (bind_Some _ _ _ _ _ (write_authors_spec _ _ _)).
    unfold WriteString. cbn [fst snd]. unfold date_attribute.
    repeat case_decide;
      repeat match goal with
             | |- context [0 <? ?v] => destruct (Z.ltb_spec 0 v); try lia
             end;
      rewrite <- !app_assoc; reflexivity.
Qed.

(** ** The end of a document *)

(** The closing tag [DocumentFooter] writes for the division with code [dl]:
    none when [dl] is no division. *)
Definition matter_close_of (dl : Z) : list byte :=
  if decide (dl = DOC_FRONT_MATTER) then matter_close Front
  else if decide (dl = DOC_MAIN_MATTER) then matter_close Main
  else if decide (dl = DOC_BACK_MATTER) then matter_close Back
  else [].

(** What [DocumentMatter] writes to enter a division. *)
Definition matter_enter (p : Matter) : list byte :=
  match p with
  | Front => []
  | Main => bytes ("</front>" +:+ nl) ++ bytes ("<middle>" +:+ nl)
  | Back => bytes ("</middle>" +:+ nl) ++ bytes ("<back>" +:+ nl)
  end.

Lemma DocumentFooter_any o b :
  standalone o → sectionLevel o <= GoInt.int_max →
  DocumentFooter true (o, b)
  = Some (tt, (drained o,
               b ++ section_closes (Z.to_nat (sectionLevel o))
                 ++ matter_close_of (docLevel o) ++ bytes ("</rfc>" +:+ nl))).
Proof.
  intros Hs Hk. unfold DocumentFooter.
  rewrite (bind_Some (get flags) _ (o, b) (flags o) (o, b)) by reflexivity.
  rewrite (standalone_test _ Hs). cbn [negb orb].
  rewrite (bind_Some (get sectionLevel) _ (o, b) (sectionLevel o) (o, b)) by reflexivity.
  rewrite (bind_Some _ _ _ _ _ (drain_sections o b Hk)).
  rewrite (bind_Some (get docLevel) _ (drained o, _) (docLevel (drained o)) (drained o, _))
    by reflexivity.
  assert (docLevel (drained o) = docLevel o) as -> by (unfold drained; by case_decide).
  unfold matter_close_of, bind, WriteString, ret.
  destruct (Z.eqb_spec (docLevel o) DOC_FRONT_MATTER) as [Hf|Hf];
    [rewrite (decide_True _ _ Hf) | rewrite (decide_False _ _ Hf);
     destruct (Z.eqb_spec (docLevel o) DOC_MAIN_MATTER) as [Hm|Hm];
     [rewrite (decide_True _ _ Hm) | rewrite (decide_False _ _ Hm);
      destruct (Z.eqb_spec (docLevel o) DOC_BACK_MATTER) as [Hb|Hb];
      [rewrite (decide_True _ _ Hb) | rewrite (decide_False _ _ Hb)]]];
    cbn [fst snd matter_close]; by rewrite <- ?app_assoc.
Qed.

Lemma matter_close_of_code (p : Matter) : matter_close_of (matter_code p) = matter_close p.
Proof.
  destruct DOC_ne as (Hfm & Hfb & Hmb). unfold matter_close_of.
  destruct p; simpl; repeat case_decide; congruence.
Qed.

Lemma drained_drained o : sectionLevel (drained o) <= 0 ∨ sectionLevel (drained o) = sectionLevel o.
Proof. unfold drained. case_decide; [left; simpl; lia | by right]. Qed.

(** X9: the end of a standalone document. [References] followed by
    [DocumentFooter], at depth [k] in the division [p]: the [k] open sections
    are closed once, by [References]; [p] is closed and the back matter
    opened (nothing of the two when [p] is the back matter); the reference
    groups follow; and the footer closes no section, closes the back matter
    and then the document. *)
Theorem References_then_DocumentFooter
    (p : Matter) (k : Z) (citations : gmap string citation) o b :
  standalone o → sectionLevel o = k → 0 <= k <= GoInt.int_max →
  docLevel o = matter_code p →
  Z.of_nat (size citations) <= GoInt.int_max →
  (References citations true ;; DocumentFooter true) (o, b)
  = Some (tt, (with_docLevel DOC_BACK_MATTER (with_sectionLevel 0 o),
               b ++ section_closes (Z.to_nat k)
                 ++ back_transition p
                 ++ reference_group "Informative References" (of_kind "i" (range 1 citations))
                 ++ reference_group "Normative References" (of_kind "n" (range 2 citations))
                 ++ bytes ("</back>" +:+ nl)
                 ++ bytes ("</rfc>" +:+ nl))).
Proof.
  intros Hs <- Hk Hp Hsize.
  rewrite (bind_Some _ _ _ _ _ (References_spec citations o b Hs (proj2 Hk) Hsize)).
  rewrite drained_nonneg by lia.
  rewrite DocumentFooter_any; [|exact Hs|simpl; lia].
  rewrite drained_nonneg by (simpl; lia).
  cbn [sectionLevel docLevel with_docLevel with_sectionLevel].
  pose proof (matter_close_of_code Back) as Hback. cbn [matter_code] in Hback.
  rewrite Hback, Hp, to_back_matter.
  change (section_closes (Z.to_nat 0)) with (@nil byte).
  unfold with_sectionLevel, with_docLevel. cbn [fst snd flags sectionLevel docLevel ial
    titleBlock matter_close app]. by rewrite <- !app_assoc.
Qed.

(** X10: a renderer whose [docLevel] is the code of no division, as that of a
    new renderer is when no division has code 0. In standalone mode
    [DocumentFooter] then closes the open sections and the document but no
    division, and [References] closes the open sections and writes the
    reference groups without opening the back matter, yet sets [docLevel] to
    [DOC_BACK_MATTER]. *)
Theorem no_division_no_matter_tags (k : Z) (citations : gmap string citation) o b :
  standalone o → sectionLevel o = k → 0 <= k <= GoInt.int_max →
  docLevel o ≠ DOC_FRONT_MATTER → docLevel o ≠ DOC_MAIN_MATTER →
  docLevel o ≠ DOC_BACK_MATTER →
  Z.of_nat (size citations) <= GoInt.int_max →
  DocumentFooter true (o, b)
  = Some (tt, (with_sectionLevel 0 o,
               b ++ section_closes (Z.to_nat k) ++ bytes ("</rfc>" +:+ nl)))
  ∧ References citations true (o, b)
    = Some (tt, (with_docLevel DOC_BACK_MATTER (with_sectionLevel 0 o),
                 b ++ section_closes (Z.to_nat k)
                   ++ reference_group "Informative References"
                        (of_kind "i" (range 1 citations))
                   ++ reference_group "Normative References"
                        (of_kind "n" (range 2 citations)))).
Proof.
  intros Hs <- Hk Hf Hm Hb Hsize. split.
  - rewrite DocumentFooter_any by (done || lia). rewrite drained_nonneg by lia.
    unfold matter_close_of. by rewrite !decide_False by done.
  - rewrite References_spec by (done || lia). rewrite drained_nonneg by lia.
    unfold to_back. by rewrite !decide_False by done.
Qed.

(** X11: citations that are neither informative nor normative are left out.
    When no citation of the map has kind ['i'] or ['n'], [References] writes
    no reference group, only the closing section tags and the transition to
    the back matter. *)
Theorem References_other_kinds_omitted
    (p : Matter) (k : Z) (citations : gmap string citation) o b :
  standalone o → sectionLevel o = k → 0 <= k <= GoInt.int_max →
  docLevel o = matter_code p →
  Z.of_nat (size citations) <= GoInt.int_max →
  (∀ key c, citations !! key = Some c → typ c ≠ "i"%byte ∧ typ c ≠ "n"%byte) →
  References citations true (o, b)
  = Some (tt, (with_docLevel DOC_BACK_MATTER (with_sectionLevel 0 o),
               b ++ section_closes (Z.to_nat k) ++ back_transition p)).
Proof.
  intros Hs <- Hk Hp Hsize Hother.
  assert (∀ kind n, kind = "i"%byte ∨ kind = "n"%byte →
                    of_kind kind (range n citations) = []) as Hnone.
  { intros kind n Hkind. apply Permutation_nil_r. rewrite of_kind_range.
    unfold of_kind.
    destruct (filter _ (map_to_list citations)) as [|[key c] l] eqn:Hfilter; [done|].
    assert ((key, c) ∈ filter (λ kc : string * citation, Byte.eqb (typ kc.2) kind)
                         (map_to_list citations)) as Hin
      by (rewrite Hfilter; left).
    apply list_elem_of_filter in Hin as [Hc Hin]. apply elem_of_map_to_list in Hin.
    apply Is_true_true, Byte.byte_dec_bl in Hc. simpl in Hc.
    destruct (Hother key c Hin) as [Hi Hn]. destruct Hkind; congruence. }
  rewrite References_spec by (done || lia).
  rewrite !Hnone by auto. rewrite drained_nonneg by lia.
  rewrite Hp, to_back_matter. simpl. by rewrite !app_nil_r.
Qed.

(** X12: entering a division and ending the document. [DocumentMatter]
    writes the transition into the division [p] whatever the current division
    and depth are and closes no section; the footer that follows closes the
    open sections, then [p], then the document. *)
Theorem DocumentMatter_then_DocumentFooter (p : Matter) (k : Z) o b :
  standalone o → sectionLevel o = k → 0 <= k <= GoInt.int_max →
  (DocumentMatter (matter_code p) ;; DocumentFooter true) (o, b)
  = Some (tt, (with_sectionLevel 0 (with_docLevel (matter_code p) o),
               b ++ matter_enter p
                 ++ section_closes (Z.to_nat k)
                 ++ matter_close p ++ bytes ("</rfc>" +:+ nl))).
Proof.
  intros Hs <- Hk. destruct DOC_ne as (Hfm & Hfb & Hmb).
  assert (DocumentMatter (matter_code p) (o, b)
          = Some (tt, (with_docLevel (matter_code p) o, b ++ matter_enter p))) as Henter.
  { unfold DocumentMatter, bind, WriteString, modify, ret. cbn [fst snd].
    destruct p; simpl.
    - rewrite Z.eqb_refl. by rewrite app_nil_r.
    - destruct (Z.eqb_spec DOC_MAIN_MATTER DOC_FRONT_MATTER); [congruence|].
      rewrite Z.eqb_refl. cbn [fst snd]. by rewrite <- app_assoc.
    - destruct (Z.eqb_spec DOC_BACK_MATTER DOC_FRONT_MATTER); [congruence|].
      destruct (Z.eqb_spec DOC_BACK_MATTER DOC_MAIN_MATTER); [congruence|].
      rewrite Z.eqb_refl. cbn [fst snd]. by rewrite <- app_assoc. }
  rewrite (bind_Some _ _ _ _ _ Henter).
  rewrite DocumentFooter_any; [|exact Hs|simpl; lia].
  rewrite drained_nonneg by (simpl; lia). simpl docLevel. simpl sectionLevel.
  rewrite matter_close_of_code. by rewrite <- !app_assoc.
Qed.

(** ** Headings that skip no level *)

Definition open_tag : list byte := bytes "<section".
Definition close_tag : list byte := bytes "</section>".

(** A text in which no section tag starts. *)
Definition tag_free (t : list byte) : Prop :=
  count_occurrences open_tag t = 0%nat ∧ count_occurrences close_tag t = 0%nat.

(** A call of [Header] outside a quoted block: its level, its anchor, and the
    title its callback appends with the boolean it returns. *)
Record heading : Type := mkHeading {
  h_level : Z;
  h_id : string;
  h_title : list byte;
  h_produced : bool
}.

(** The calls of [Header] for the headings of a document, in order. *)
Fixpoint headings (hs : list heading) : M unit :=
  match hs with
  | [] => ret tt
  | h :: hs' =>
      Header (titled (h_title h) (h_produced h)) (h_level h) (h_id h) false ;;
      headings hs'
  end.

(** Every heading is at level 1 at least and at most one level below the
    heading before it (below [depth] for the first). *)
Fixpoint no_skip (depth : Z) (hs : list heading) : Prop :=
  match hs with
  | [] => True
  | h :: hs' =>
      1 <= h_level h <= depth + 1 ∧ h_level h <= GoInt.int_max ∧ no_skip (h_level h) hs'
  end.

Definition clean (h : heading) : Prop :=
  tag_free (bytes (h_id h)) ∧ tag_free (h_title h).

(** A pattern does not match across a byte that only its first byte could
    be: what follows such a byte adds nothing to the matches before it. *)
Lemma HasPrefix_app_boundary (tail a : list byte) (c : byte) (b : list byte) :
  c ∉ tail → HasPrefix (a ++ c :: b) tail = HasPrefix a tail.
Proof.
  revert a. induction tail as [|p tail IH]; intros a Hc; [reflexivity|].
  apply not_elem_of_cons in Hc as [Hcp Hc].
  destruct a as [|y a]; simpl.
  - destruct (Byte.eqb c p) eqn:Heq; [|reflexivity].
    apply Byte.byte_dec_bl in Heq. contradiction.
  - destruct (Byte.eqb y p); [by apply IH | reflexivity].
Qed.

Lemma count_app_boundary (c0 : byte) (tail a : list byte) (c : byte) (b : list byte) :
  c ∉ tail →
  count_occurrences (c0 :: tail) (a ++ c :: b)
  = (count_occurrences (c0 :: tail) a + count_occurrences (c0 :: tail) (c :: b))%nat.
Proof.
  intros Hc. induction a as [|x a IH]; [reflexivity|].
  change ((x :: a) ++ c :: b) with (x :: (a ++ c :: b)).
  cbn [count_occurrences]. rewrite IH.
  change (HasPrefix (x :: a ++ c :: b) (c0 :: tail))
    with (if Byte.eqb x c0 then HasPrefix (a ++ c :: b) tail else false).
  change (HasPrefix (x :: a) (c0 :: tail))
    with (if Byte.eqb x c0 then HasPrefix a tail else false).
  rewrite HasPrefix_app_boundary by done.
  destruct (if Byte.eqb x c0 then HasPrefix a tail else false);
    cbn [count_occurrences]; destruct (HasPrefix (c :: b) (c0 :: tail)); lia.
Qed.

(** The bytes a chunk of the output may start with, [<] and the newline, are
    in the tail of neither tag. *)
Lemma boundary_open (c : byte) :
  c = "<"%byte ∨ c = "010"%byte ∨ c = "034"%byte → c ∉ bytes "section".
Proof.
  intros Hc Hin. apply list_elem_of_In in Hin. vm_compute in Hin.
  destruct Hc as [-> | [-> | ->]]; repeat (destruct Hin as [Hin|Hin]; [discriminate|]); done.
Qed.

Lemma boundary_close (c : byte) :
  c = "<"%byte ∨ c = "010"%byte ∨ c = "034"%byte → c ∉ bytes "/section>".
Proof.
  intros Hc Hin. apply list_elem_of_In in Hin. vm_compute in Hin.
  destruct Hc as [-> | [-> | ->]]; repeat (destruct Hin as [Hin|Hin]; [discriminate|]); done.
Qed.

Lemma count_open_boundary (a : list byte) (c : byte) (b : list byte) :
  c = "<"%byte ∨ c = "010"%byte ∨ c = "034"%byte →
  count_occurrences open_tag (a ++ c :: b)
  = (count_occurrences open_tag a + count_occurrences open_tag (c :: b))%nat.
Proof. intros Hc. apply (count_app_boundary "<" (bytes "section")), boundary_open, Hc. Qed.

Lemma count_close_boundary (a : list byte) (c : byte) (b : list byte) :
  c = "<"%byte ∨ c = "010"%byte ∨ c = "034"%byte →
  count_occurrences close_tag (a ++ c :: b)
  = (count_occurrences close_tag a + count_occurrences close_tag (c :: b))%nat.
Proof. intros Hc. apply (count_app_boundary "<" (bytes "/section>")), boundary_close, Hc. Qed.

Lemma count_open_closes (n : nat) (r : list byte) :
  count_occurrences open_tag (section_closes n ++ r) = count_occurrences open_tag r.
Proof.
  induction n as [|n IH]; [reflexivity|].
  rewrite section_closes_S, <- app_assoc.
  transitivity (count_occurrences open_tag (section_closes n ++ r)); [reflexivity | exact IH].
Qed.

Lemma count_close_closes (n : nat) (r : list byte) :
  count_occurrences close_tag (section_closes n ++ r)
  = (n + count_occurrences close_tag r)%nat.
Proof.
  induction n as [|n IH]; [reflexivity|].
  rewrite section_closes_S, <- app_assoc.
  transitivity (S (count_occurrences close_tag (section_closes n ++ r)));
    [reflexivity | by rewrite IH].
Qed.

(** What one heading appends: the closing tags, the opening tag with the
    anchor, and the title in its [name] node. *)
Definition heading_chunk (closes : nat) (id : string) (t : list byte) : list byte :=
  section_closes closes ++ section_open id ++ bytes "<name>" ++ t
    ++ bytes ("</name>" +:+ nl).

Lemma section_open_split (id : string) :
  section_open id
  = bytes (nl +:+ "<section anchor=") ++ "034"%byte :: bytes id
      ++ "034"%byte :: bytes (">" +:+ nl).
Proof.
  change (section_open id)
    with (bytes ((nl +:+ "<section anchor=" +:+ dq) +:+ id +:+ (dq +:+ ">" +:+ nl))).
  rewrite !bytes_app. reflexivity.
Qed.

Lemma heading_chunk_open (closes : nat) (id : string) (t : list byte) :
  tag_free (bytes id) → tag_free t →
  count_occurrences open_tag (heading_chunk closes id t) = 1%nat.
Proof.
  intros [Hid _] [Ht _]. unfold heading_chunk.
  rewrite count_open_closes, section_open_split, <- !app_assoc.
  set (rest := bytes "<name>" ++ t ++ bytes ("</name>" +:+ nl)).
  transitivity (S (count_occurrences open_tag
                     ((bytes id ++ "034"%byte :: bytes (">" +:+ nl)) ++ rest)));
    [reflexivity|].
  rewrite <- app_assoc.
  change (("034"%byte :: bytes (">" +:+ nl)) ++ rest)
    with ("034"%byte :: (bytes (">" +:+ nl) ++ rest)).
  rewrite count_open_boundary, Hid by auto.
  transitivity (S (count_occurrences open_tag (t ++ "<"%byte :: bytes ("/name>" +:+ nl))));
    [reflexivity|].
  rewrite count_open_boundary, Ht by auto. reflexivity.
Qed.

Lemma heading_chunk_close (closes : nat) (id : string) (t : list byte) :
  tag_free (bytes id) → tag_free t →
  count_occurrences close_tag (heading_chunk closes id t) = closes.
Proof.
  intros [_ Hid] [_ Ht]. unfold heading_chunk.
  rewrite count_close_closes, section_open_split, <- !app_assoc.
  set (rest := bytes "<name>" ++ t ++ bytes ("</name>" +:+ nl)).
  transitivity (closes + count_occurrences close_tag
                  ((bytes id ++ "034"%byte :: bytes (">" +:+ nl)) ++ rest))%nat;
    [reflexivity|].
  rewrite <- app_assoc.
  change (("034"%byte :: bytes (">" +:+ nl)) ++ rest)
    with ("034"%byte :: (bytes (">" +:+ nl) ++ rest)).
  rewrite count_close_boundary, Hid by auto.
  transitivity (closes + count_occurrences close_tag
                  (t ++ "<"%byte :: bytes ("/name>" +:+ nl)))%nat;
    [reflexivity|].
  rewrite count_close_boundary, Ht by auto.
  transitivity (closes + 0)%nat; [reflexivity | lia].
Qed.

(** A chunk starts with [<] or with a newline. *)
Lemma heading_chunk_starts (closes : nat) (id : string) (t : list byte) :
  ∃ c r, heading_chunk closes id t = c :: r ∧ (c = "<"%byte ∨ c = "010"%byte ∨ c = "034"%byte).
Proof.
  unfold heading_chunk. destruct closes as [|n].
  - rewrite section_open_split. eexists _, _. split; [reflexivity | right; by left].
  - rewrite section_closes_S. eexists _, _. split; [reflexivity | by left].
Qed.

Lemma Header_titled (t : list byte) (produced : bool) (level : Z) (id : string) o b :
  sectionLevel o - level < GoInt.int_max →
  Header (titled t produced) level id false (o, b)
  = Some (tt, (with_sectionLevel level o,
               b ++ heading_chunk (closed_by level (sectionLevel o)) id t)).
Proof.
  intros Hrange. rewrite Header_section by done. unfold titled, heading_chunk.
  cbn [fst snd]. by rewrite <- !app_assoc.
Qed.

Lemma headings_balance (hs : list heading) : ∀ o b,
  0 <= sectionLevel o <= GoInt.int_max → no_skip (sectionLevel o) hs → Forall clean hs →
  ∃ level out,
    headings hs (o, b) = Some (tt, (with_sectionLevel level o, out))
    ∧ 0 <= level <= GoInt.int_max
    ∧ count_occurrences open_tag out = (count_occurrences open_tag b + length hs)%nat
    ∧ Z.of_nat (count_occurrences close_tag out) + level
      = Z.of_nat (count_occurrences close_tag b) + sectionLevel o + Z.of_nat (length hs).
Proof.
  induction hs as [|h hs IH]; intros o b Hk Hskip Hclean.
  - exists (sectionLevel o), b. repeat split; try lia.
    + destruct o; reflexivity.
    + simpl. lia.
    + simpl. lia.
  - destruct Hskip as (Hlevel & Hmax & Hskip).
    apply Forall_cons in Hclean as [[Hid Ht] Hclean].
    cbn [headings].
    rewrite (bind_Some _ _ _ _ _
               (Header_titled (h_title h) (h_produced h) (h_level h) (h_id h) o b
                  ltac:(unfold GoInt.int_max in *; lia))).
    set (n := closed_by (h_level h) (sectionLevel o)).
    assert (Z.of_nat n = sectionLevel o - h_level h + 1) as Hn.
    { unfold n, closed_by. case_decide; lia. }
    destruct (IH (with_sectionLevel (h_level h) o) (b ++ heading_chunk n (h_id h) (h_title h)))
      as (level & out & Hrun & Hlevel' & Hopen & Hclose);
      [simpl; lia | exact Hskip | exact Hclean |].
    exists level, out. split; [rewrite Hrun; destruct o; reflexivity|].
    split; [exact Hlevel'|].
    destruct (heading_chunk_starts n (h_id h) (h_title h)) as (c & r & Hchunk & Hc).
    pose proof (heading_chunk_open n (h_id h) (h_title h) Hid Ht) as Hco.
    pose proof (heading_chunk_close n (h_id h) (h_title h) Hid Ht) as Hcc.
    rewrite Hchunk in Hopen, Hclose, Hco, Hcc.
    rewrite count_open_boundary in Hopen by exact Hc.
    rewrite count_close_boundary in Hclose by exact Hc.
    simpl sectionLevel in Hclose. simpl length. split; lia.
Qed.

Lemma footer_tail (n : nat) (dl : Z) :
  let tail := section_closes n ++ matter_close_of dl ++ bytes ("</rfc>" +:+ nl) in
  count_occurrences open_tag tail = 0%nat
  ∧ count_occurrences close_tag tail = n
  ∧ ∃ r, tail = "<"%byte :: r.
Proof.
  cbv zeta. rewrite count_open_closes, count_close_closes.
  assert (∃ m, matter_close_of dl = m
               ∧ count_occurrences open_tag (m ++ bytes ("</rfc>" +:+ nl)) = 0%nat
               ∧ count_occurrences close_tag (m ++ bytes ("</rfc>" +:+ nl)) = 0%nat
               ∧ ∃ r, m ++ bytes ("</rfc>" +:+ nl) = "<"%byte :: r)
    as (m & -> & Hopen & Hclose & r & Hr).
  { unfold matter_close_of. repeat case_decide; eexists; (split; [reflexivity|]);
      (split; [reflexivity|]); (split; [reflexivity|]); eexists; reflexivity. }
  rewrite Hopen, Hclose. split; [reflexivity|]. split; [lia|].
  destruct n as [|n]; [by exists r|].
  rewrite section_closes_S. eexists. reflexivity.
Qed.

(** X13: headings that skip no level give balanced sections. In standalone
    mode, from depth [sectionLevel], a sequence of headings each at level 1 at
    least and at most one below the one before it, with anchors and titles in
    which no section tag starts, followed by the footer: every heading adds
    one opening section tag, and the closing section tags added are as many
    as the headings plus the sections open at the start. From a new renderer
    the document has as many closing as opening section tags. The footer
    leaves [sectionLevel] at 0. *)
Theorem no_skip_headings_balanced (hs : list heading) o b :
  standalone o → 0 <= sectionLevel o <= GoInt.int_max →
  no_skip (sectionLevel o) hs → Forall clean hs →
  ∃ o' out,
    (headings hs ;; DocumentFooter true) (o, b) = Some (tt, (o', out))
    ∧ sectionLevel o' = 0
    ∧ count_occurrences open_tag out = (count_occurrences open_tag b + length hs)%nat
    ∧ count_occurrences close_tag out
      = (count_occurrences close_tag b + Z.to_nat (sectionLevel o) + length hs)%nat.
Proof.
  intros Hs Hk Hskip Hclean.
  destruct (headings_balance hs o b Hk Hskip Hclean)
    as (level & out & Hrun & Hlevel & Hopen & Hclose).
  rewrite (bind_Some _ _ _ _ _ Hrun).
  rewrite DocumentFooter_any; [|exact Hs | simpl; lia].
  rewrite drained_nonneg by (simpl; lia). simpl sectionLevel. simpl docLevel.
  eexists _, _. split; [reflexivity|]. split; [reflexivity|].
  destruct (footer_tail (Z.to_nat level) (docLevel o)) as (Hto & Htc & r & Hr).
  rewrite Hr in Hto, Htc. rewrite Hr.
  rewrite count_open_boundary, count_close_boundary by auto. lia.
Qed.

(** X14: a heading that skips a level unbalances the sections. From depth
    [sectionLevel = d], a heading at a level above [d + 1] closes nothing and
    opens one section, so that [d + 1] sections are open, but the footer that
    follows writes as many closing tags as the level of the heading. *)
Theorem skipped_level_surplus (h : heading) o b :
  standalone o → 0 <= sectionLevel o → sectionLevel o + 1 < h_level h →
  h_level h <= GoInt.int_max → clean h →
  ∃ o' out,
    (Header (titled (h_title h) (h_produced h)) (h_level h) (h_id h) false ;;
     DocumentFooter true) (o, b) = Some (tt, (o', out))
    ∧ count_occurrences open_tag out = (count_occurrences open_tag b + 1)%nat
    ∧ count_occurrences close_tag out
      = (count_occurrences close_tag b + Z.to_nat (h_level h))%nat
    ∧ (Z.to_nat (sectionLevel o) + 1 < Z.to_nat (h_level h))%nat.
Proof.
  intros Hs Hd Hjump Hmax [Hid Ht].
  rewrite (bind_Some _ _ _ _ _
             (Header_titled (h_title h) (h_produced h) (h_level h) (h_id h) o b
                ltac:(unfold GoInt.int_max in *; lia))).
  assert (closed_by (h_level h) (sectionLevel o) = 0%nat) as ->
    by (unfold closed_by; rewrite decide_False by lia; reflexivity).
  rewrite DocumentFooter_any; [|exact Hs | simpl; lia].
  eexists _, _. split; [reflexivity|]. simpl sectionLevel. simpl docLevel.
  destruct (footer_tail (Z.to_nat (h_level h)) (docLevel o)) as (Hto & Htc & r & Hr).
  rewrite Hr in Hto, Htc. rewrite Hr.
  rewrite count_open_boundary, count_close_boundary by auto.
  destruct (heading_chunk_starts 0 (h_id h) (h_title h)) as (c & r' & Hchunk & Hc).
  pose proof (heading_chunk_open 0 (h_id h) (h_title h) Hid Ht) as Hco.
  pose proof (heading_chunk_close 0 (h_id h) (h_title h) Hid Ht) as Hcc.
  rewrite Hchunk in Hco, Hcc. rewrite Hchunk.
  rewrite count_open_boundary, count_close_boundary by exact Hc. lia.
Qed.

(** ** A whole standalone document *)

(** What [TitleBlockTOML] appends in standalone mode. *)
Definition title_block (block : title) : list byte :=
  bytes ("<rfc xmlns:xi=" +:+ dq +:+ "http://www.w3.org/2001/XInclude"
           +:+ dq +:+ " ipr=" +:+ dq +:+ Ipr block +:+ dq
           +:+ " category=" +:+ dq +:+ Category block +:+ dq
           +:+ " docName=" +:+ dq +:+ DocName block +:+ dq
           +:+ ">" +:+ nl)
    ++ bytes ("<front>" +:+ nl)
    ++ bytes ("<title abbrev=" +:+ dq +:+ Abbrev block +:+ dq +:+ ">")
    ++ bytes (Title block +:+ "</title>" +:+ nl +:+ nl)
    ++ bytes ("<date"
                +:+ date_attribute "year" (Date_Year block) (Itoa (Date_Year block))
                +:+ date_attribute "month" (Date_Month block)
                      (Month_String (Date_Month block))
                +:+ date_attribute "day" (Date_Day block) (Itoa (Date_Day block))
                +:+ "/>" +:+ nl +:+ nl)
    ++ bytes ("<area>" +:+ Area block +:+ "</area>" +:+ nl)
    ++ bytes ("<workgroup>" +:+ Workgroup block +:+ "</workgroup>" +:+ nl)
    ++ mjoin (keyword_line <$> Keyword block)
    ++ mjoin (author_lines <$> Author block)
    ++ bytes nl.

Lemma TitleBlockTOML_standalone (block : title) o b :
  standalone o →
  TitleBlockTOML block (o, b)
  = Some (tt, (with_titleBlock (Some block) o, b ++ title_block block)).
Proof.
  intros Hs. unfold TitleBlockTOML.
  rewrite (bind_Some (get flags) _ (o, b) (flags o) (o, b)) by reflexivity.
  rewrite (standalone_test _ Hs).
  rewrite (bind_Some (modify _) _ _ _ _ eq_refl). cbn [fst snd].
  repeat (rewrite (bind_Some (WriteString _) _ _ _ _ eq_refl); cbn [fst snd]).
  cbv zeta.
  repeat (rewrite (bind_Some (WriteString _) _ _ _ _ eq_refl); cbn [fst snd]).
  rewrite (bind_Some _ _ _ _ _ (write_keywords_spec _ _ _)).
  rewrite (bind_Some _ _ _ _ _ (write_authors_spec _ _ _)).
  unfold WriteString, title_block. cbn [fst snd]. unfold date_attribute.
  repeat case_decide;
    repeat match goal with
           | |- context [0 <? ?v] => destruct (Z.ltb_spec 0 v); try lia
           end;
    rewrite <- !app_assoc; reflexivity.
Qed.

(** X15: the skeleton of a standalone document. On a new renderer with the
    standalone flag, the header, the title block, the transition to the main
    matter, a body of stateless emitters, the references and the footer give:
    the XML declaration; [rfc] and [front] opened by the title block; [front]
    closed and [middle] opened; the body; [middle] closed and [back] opened;
    the reference groups; [back] closed; [rfc] closed. Every container opened
    is closed, in order. *)
Theorem standalone_document_skeleton
    (fl : Z) (block : title) (body : M unit) (w : list byte)
    (citations : gmap string citation) :
  GoInt.and fl XML_STANDALONE ≠ 0 →
  emits body w →
  Z.of_nat (size citations) <= GoInt.int_max →
  (DocumentHeader true ;; TitleBlockTOML block ;; DocumentMatter DOC_MAIN_MATTER ;;
   body ;; References citations true ;; DocumentFooter true) (Xml2Renderer fl, [])
  = Some (tt, (mkXml2 fl 0 DOC_BACK_MATTER [] (Some block),
               bytes ("<?xml version=" +:+ dq +:+ "1.0" +:+ dq +:+ " encoding="
                        +:+ dq +:+ "UTF-8" +:+ dq +:+ "?>" +:+ nl)
                 ++ title_block block
                 ++ bytes ("</front>" +:+ nl) ++ bytes ("<middle>" +:+ nl)
                 ++ w
                 ++ bytes ("</middle>" +:+ nl) ++ bytes ("<back>" +:+ nl)
                 ++ reference_group "Informative References" (of_kind "i" (range 1 citations))
                 ++ reference_group "Normative References" (of_kind "n" (range 2 citations))
                 ++ bytes ("</back>" +:+ nl)
                 ++ bytes ("</rfc>" +:+ nl))).
Proof.
  intros Hfl Hbody Hsize. destruct DOC_ne as (Hfm & Hfb & Hmb).
  set (o0 := Xml2Renderer fl).
  assert (standalone o0) as Hs0 by exact Hfl.
  assert (DocumentHeader true (o0, [])
          = Some (tt, (o0, bytes ("<?xml version=" +:+ dq +:+ "1.0" +:+ dq +:+ " encoding="
                                    +:+ dq +:+ "UTF-8" +:+ dq +:+ "?>" +:+ nl)))) as Hheader.
  { unfold DocumentHeader.
    rewrite (bind_Some (get flags) _ (o0, []) (flags o0) (o0, [])) by reflexivity.
    by rewrite (standalone_test _ Hs0). }
  rewrite (bind_Some _ _ _ _ _ Hheader).
  rewrite (bind_Some _ _ _ _ _ (TitleBlockTOML_standalone block _ _ Hs0)).
  set (o1 := with_titleBlock (Some block) o0).
  assert (∀ b, DocumentMatter DOC_MAIN_MATTER (o1, b)
               = Some (tt, (with_docLevel DOC_MAIN_MATTER o1,
                            b ++ bytes ("</front>" +:+ nl) ++ bytes ("<middle>" +:+ nl))))
    as Hmain.
  { intros b. unfold DocumentMatter, bind, WriteString, modify, ret. cbn [fst snd].
    destruct (Z.eqb_spec DOC_MAIN_MATTER DOC_FRONT_MATTER); [congruence|].
    rewrite Z.eqb_refl. cbn [fst snd]. by rewrite <- app_assoc. }
  rewrite (bind_Some _ _ _ _ _ (Hmain _)).
  rewrite (bind_Some _ _ _ _ _ (Hbody _ _)).
  set (o2 := with_docLevel DOC_MAIN_MATTER o1).
  assert (standalone o2) as Hs2 by exact Hfl.
  rewrite (bind_Some _ _ _ _ _
             (References_spec citations o2 _ Hs2 ltac:(vm_compute; discriminate) Hsize)).
  rewrite DocumentFooter_any; [|exact Hfl | vm_compute; discriminate].
  unfold matter_close_of, to_back, drained. cbn.
  rewrite (decide_False (P := DOC_MAIN_MATTER = DOC_FRONT_MATTER)) by congruence.
  rewrite (decide_True (P := DOC_MAIN_MATTER = DOC_MAIN_MATTER)) by reflexivity.
  rewrite (decide_False (P := DOC_BACK_MATTER = DOC_FRONT_MATTER)) by congruence.
  rewrite (decide_False (P := DOC_BACK_MATTER = DOC_MAIN_MATTER)) by congruence.
  rewrite (decide_True (P := DOC_BACK_MATTER = DOC_BACK_MATTER)) by reflexivity.
  cbn. by rewrite <- !app_assoc.
Qed.

End Renderer.

(** ** The handlers on the sample instances *)

Local Abbreviation renderer fl sl dl := (mkXml2 unit unit fl sl dl [] None).
Local Abbreviation Sample_DocumentFooter :=
  (DocumentFooter Sample.XML_STANDALONE Sample.DOC_FRONT_MATTER
     Sample.DOC_MAIN_MATTER Sample.DOC_BACK_MATTER unit unit).
Local Abbreviation Sample_References :=
  (References Sample.XML_STANDALONE Sample.DOC_FRONT_MATTER
     Sample.DOC_MAIN_MATTER Sample.DOC_BACK_MATTER unit unit
     Sample.citation Sample.typ Sample.filename Sample.referenceFile Sample.range).

Lemma Sample_DOC_distinct :
  NoDup [Sample.DOC_FRONT_MATTER; Sample.DOC_MAIN_MATTER; Sample.DOC_BACK_MATTER].
Proof. apply (bool_decide_unpack _). vm_compute. exact I. Defined.

Lemma Sample_range_perm n m : Sample.range n m ≡ₚ map_to_list m.
Proof. reflexivity. Defined.

(** C1, where the code departs from it: a heading of level 1 followed by a
    heading of level 3 opens two sections and closes none, and leaves
    [sectionLevel] at 3; the footer then closes three sections. The document
    has two opening and three closing section tags. *)
Theorem level_skip_closes_more_than_opened :
  ∃ o1 b1 o2 b2,
    bind unit unit (Header unit unit (Sample.writes "A" true) 1 "a" false)
      (fun _ => Header unit unit (Sample.writes "B" true) 3 "b" false)
      (Xml2Renderer unit unit Sample.XML_STANDALONE, [])
    = Some (tt, (o1, b1))
    ∧ sectionLevel unit unit o1 = 3
    ∧ count_occurrences (bytes "<section") b1 = 2%nat
    ∧ count_occurrences (bytes "</section>") b1 = 0%nat
    ∧ Sample_DocumentFooter true (o1, b1) = Some (tt, (o2, b2))
    ∧ count_occurrences (bytes "<section") b2 = 2%nat
    ∧ count_occurrences (bytes "</section>") b2 = 3%nat.
Proof.
  eexists _, _, _, _.
  split; [vm_compute; reflexivity|].
  split; [reflexivity|].
  split; [vm_compute; reflexivity|].
  split; [vm_compute; reflexivity|].
  split; [vm_compute; reflexivity|].
  split; vm_compute; reflexivity.
Qed.

Lemma Header_closes_then_opens_one_section_witness :
  3 - 2 < GoInt.int_max
  ∧ Header unit unit (Sample.writes "T" true) 2 "a" false (renderer 1 3 2, bytes "x")
    = Some (tt, (renderer 1 2 2,
                 bytes "x" ++ section_closes 2 ++ section_open "a"
                   ++ bytes "<name>" ++ bytes "T" ++ bytes ("</name>" +:+ nl)))
  ∧ 1 + 1 < 3
  ∧ Header unit unit (Sample.writes "T" true) 3 "a" false (renderer 1 1 2, bytes "x")
    = Some (tt, (renderer 1 3 2,
                 bytes "x" ++ section_open "a"
                   ++ bytes "<name>" ++ bytes "T" ++ bytes ("</name>" +:+ nl))).
Proof.
  assert (H32 : 3 - 2 < GoInt.int_max) by (vm_compute; reflexivity).
  assert (H13 : 1 - 3 < GoInt.int_max) by (vm_compute; reflexivity).
  assert (Hjump : 1 + 1 < 3) by lia.
  split; [exact H32|]. split; [|split; [exact Hjump|]].
  - destruct (Header_closes_then_opens_one_section unit unit
                (Sample.writes "T" true) 2 "a" (renderer 1 3 2) (bytes "x") H32)
      as [Heq _].
    etransitivity; [exact Heq|]. vm_compute. reflexivity.
  - destruct (Header_closes_then_opens_one_section unit unit
                (Sample.writes "T" true) 3 "a" (renderer 1 1 2) (bytes "x") H13)
      as [_ Heq].
    etransitivity; [exact (Heq Hjump)|]. vm_compute. reflexivity.
Defined.

Lemma Header_ignores_callback_result_witness :
  ∃ closes : nat,
    Header unit unit (Sample.writes "" false) 1 "a" false (renderer 1 0 0, [])
    = Some (tt, (renderer 1 1 0,
                 (([] ++ (section_closes closes ++ section_open "a") ++ bytes "<name>")
                    ++ bytes "") ++ bytes ("</name>" +:+ nl))).
Proof.
  destruct (Header_ignores_callback_result unit unit (Sample.writes "" false)
              1 "a" false (renderer 1 0 0) []) as [_ [closes Hkept]].
  exists closes.
  exact (Hkept (Sample.writes "" false) false _ _ eq_refl).
Defined.

Lemma List_Paragraph_rollback_witness :
  List Sample.LIST_TYPE_ORDERED Sample.LIST_TYPE_DEFINITION unit unit
    (Sample.writes "<li></li>" false) 1 5 (renderer 1 2 2, bytes "abc")
  = Some (tt, (renderer 1 2 2, bytes "abc"))
  ∧ Paragraph unit unit (Sample.writes "<li></li>" false) (renderer 1 2 2, bytes "abc")
    = Some (tt, (renderer 1 2 2, bytes "abc")).
Proof.
  destruct (List_Paragraph_rollback Sample.LIST_TYPE_ORDERED Sample.LIST_TYPE_DEFINITION
              unit unit (Sample.writes "<li></li>" false) 1 5
              (renderer 1 2 2) (bytes "abc") (renderer 1 2 2) (bytes "<li></li>"))
    as [HList HParagraph].
  split; [apply HList | apply HParagraph]; vm_compute; reflexivity.
Defined.

Lemma Image_href_or_includegraphics_witness :
  Image unit unit (bytes "https://host/a.png") [] (bytes "A") (renderer 1 0 0, [])
  = Some (tt, (renderer 1 0 0,
               [] ++ bytes (bsl +:+ "href{") ++ bytes "https://host/a.png"
                  ++ bytes "}{" ++ bytes "A" ++ bytes "}"))
  ∧ Image unit unit (bytes "ftp/a.png") [] (bytes "A") (renderer 1 0 0, [])
    = Some (tt, (renderer 1 0 0,
                 [] ++ bytes (bsl +:+ "includegraphics{") ++ bytes "ftp/a.png"
                    ++ bytes "}")).
Proof.
  split.
  - apply (Image_href_or_includegraphics unit unit).
    right. exists (bytes "host/a.png"). vm_compute. reflexivity.
  - apply (Image_href_or_includegraphics unit unit);
      intros [rest Hrest]; vm_compute in Hrest; discriminate Hrest.
Defined.

Lemma lifecycle_handlers_noop_witness :
  DocumentHeader Sample.XML_STANDALONE unit unit false (renderer 1 2 2, bytes "abc")
  = Some (tt, (renderer 1 2 2, bytes "abc"))
  ∧ Sample_DocumentFooter false (renderer 1 2 2, bytes "abc")
    = Some (tt, (renderer 1 2 2, bytes "abc"))
  ∧ Sample_References Sample.citations false (renderer 1 2 2, bytes "abc")
    = Some (tt, (renderer 1 2 2, bytes "abc")).
Proof.
  apply (lifecycle_handlers_noop Sample.XML_STANDALONE Sample.DOC_FRONT_MATTER
           Sample.DOC_MAIN_MATTER Sample.DOC_BACK_MATTER unit unit
           Sample.citation Sample.typ Sample.filename Sample.referenceFile
           Sample.range false Sample.citations (renderer 1 2 2, bytes "abc")).
  left. reflexivity.
Defined.

Lemma DocumentFooter_sections_matter_document_witness :
  Sample_DocumentFooter true (renderer 1 2 2, bytes "abc")
  = Some (tt, (renderer 1 0 2,
               bytes "abc" ++ section_closes 2 ++ bytes ("</middle>" +:+ nl)
                 ++ bytes ("</rfc>" +:+ nl))).
Proof.
  apply (DocumentFooter_sections_matter_document Sample.XML_STANDALONE
           Sample.DOC_FRONT_MATTER Sample.DOC_MAIN_MATTER Sample.DOC_BACK_MATTER
           unit unit Sample_DOC_distinct Main 2 (renderer 1 2 2) (bytes "abc")).
  - vm_compute. discriminate.
  - reflexivity.
  - vm_compute. split; discriminate.
  - reflexivity.
Defined.

Lemma DocumentMatter_writes_in_fragment_witness :
  DocumentMatter Sample.DOC_FRONT_MATTER Sample.DOC_MAIN_MATTER Sample.DOC_BACK_MATTER
    unit unit Sample.DOC_MAIN_MATTER (Xml2Renderer unit unit 0, [])
  = Some (tt, (renderer 0 0 Sample.DOC_MAIN_MATTER,
               [] ++ bytes ("</front>" +:+ nl) ++ bytes ("<middle>" +:+ nl))).
Proof.
  apply (DocumentMatter_writes_in_fragment Sample.XML_STANDALONE
           Sample.DOC_FRONT_MATTER Sample.DOC_MAIN_MATTER Sample.DOC_BACK_MATTER
           unit unit Sample_DOC_distinct (Xml2Renderer unit unit 0) []).
  reflexivity.
Defined.

Lemma References_drains_sections_then_opens_back_witness :
  Sample_References Sample.citations true (renderer 1 2 2, bytes "abc")
  = Some (tt, (renderer 1 0 3,
               bytes "abc" ++ section_closes 2
                 ++ bytes ("</middle>" +:+ nl +:+ "<back>" +:+ nl)
                 ++ bytes ("<references title=" +:+ dq +:+ "Informative References"
                             +:+ dq +:+ ">" +:+ nl
                             +:+ tab +:+ "<xi:include href=" +:+ dq
                             +:+ "reference.RFC2119.xml" +:+ dq +:+ "/>" +:+ nl
                             +:+ "</references>" +:+ nl)
                 ++ bytes ("<references title=" +:+ dq +:+ "Normative References"
                             +:+ dq +:+ ">" +:+ nl
                             +:+ tab +:+ "<xi:include href=" +:+ dq
                             +:+ "c.xml" +:+ dq +:+ "/>" +:+ nl
                             +:+ tab +:+ "<xi:include href=" +:+ dq
                             +:+ "reference.RFC1034.xml" +:+ dq +:+ "/>" +:+ nl
                             +:+ "</references>" +:+ nl)))
  ∧ Sample_DocumentFooter true (renderer 1 2 2, bytes "abc")
    = Some (tt, (renderer 1 0 2,
                 bytes "abc" ++ section_closes 2 ++ bytes ("</middle>" +:+ nl)
                   ++ bytes ("</rfc>" +:+ nl))).
Proof.
  assert (standalone Sample.XML_STANDALONE unit unit (renderer 1 2 2)) as Hs
    by (vm_compute; discriminate).
  assert (0 <= 2 <= GoInt.int_max) as Hk by (vm_compute; split; discriminate).
  assert (Z.of_nat (size Sample.citations) <= GoInt.int_max) as Hsize
    by (vm_compute; discriminate).
  destruct (References_drains_sections_then_opens_back Sample.XML_STANDALONE
              Sample.DOC_FRONT_MATTER Sample.DOC_MAIN_MATTER Sample.DOC_BACK_MATTER
              unit unit Sample.citation Sample.typ Sample.filename
              Sample.referenceFile Sample.range Sample_DOC_distinct Sample_range_perm
              Main 2 Sample.citations (renderer 1 2 2) (bytes "abc")
              Hs eq_refl Hk eq_refl Hsize) as [Hrefs Hfooter].
  split.
  - etransitivity; [exact Hrefs|]. vm_compute. reflexivity.
  - exact Hfooter.
Defined.

Lemma References_groups_by_kind_witness :
  Sample_References Sample.citations true (renderer 1 0 2, [])
  = Some (tt, (renderer 1 0 3,
               bytes ("</middle>" +:+ nl +:+ "<back>" +:+ nl)
                 ++ bytes ("<references title=" +:+ dq +:+ "Informative References"
                             +:+ dq +:+ ">" +:+ nl
                             +:+ tab +:+ "<xi:include href=" +:+ dq
                             +:+ "reference.RFC2119.xml" +:+ dq +:+ "/>" +:+ nl
                             +:+ "</references>" +:+ nl)
                 ++ bytes ("<references title=" +:+ dq +:+ "Normative References"
                             +:+ dq +:+ ">" +:+ nl
                             +:+ tab +:+ "<xi:include href=" +:+ dq
                             +:+ "c.xml" +:+ dq +:+ "/>" +:+ nl
                             +:+ tab +:+ "<xi:include href=" +:+ dq
                             +:+ "reference.RFC1034.xml" +:+ dq +:+ "/>" +:+ nl
                             +:+ "</references>" +:+ nl)))
  ∧ reference_group Sample.citation Sample.filename Sample.referenceFile
      "Informative References"
      (of_kind Sample.citation Sample.typ "i" (Sample.range 1 Sample.normative_only))
    = [].
Proof.
  assert (standalone Sample.XML_STANDALONE unit unit (renderer 1 0 2)) as Hs
    by (vm_compute; discriminate).
  assert (0 <= GoInt.int_max) as Hk by (vm_compute; discriminate).
  assert (Z.of_nat (size Sample.citations) <= GoInt.int_max) as Hsize
    by (vm_compute; discriminate).
  assert (Z.of_nat (size Sample.normative_only) <= GoInt.int_max) as Hsize'
    by (vm_compute; discriminate).
  split.
  - destruct (References_groups_by_kind Sample.XML_STANDALONE
                Sample.DOC_FRONT_MATTER Sample.DOC_MAIN_MATTER Sample.DOC_BACK_MATTER
                unit unit Sample.citation Sample.typ Sample.filename
                Sample.referenceFile Sample.range Sample_range_perm
                Sample.citations (renderer 1 0 2) [] Hs Hk Hsize) as [Hrefs _].
    etransitivity; [exact Hrefs|]. vm_compute. reflexivity.
  - destruct (References_groups_by_kind Sample.XML_STANDALONE
                Sample.DOC_FRONT_MATTER Sample.DOC_MAIN_MATTER Sample.DOC_BACK_MATTER
                unit unit Sample.citation Sample.typ Sample.filename
                Sample.referenceFile Sample.range Sample_range_perm
                Sample.normative_only (renderer 1 0 2) [] Hs Hk Hsize')
      as (_ & _ & _ & Hnone & _).
    apply Hnone. vm_compute. reflexivity.
Defined.

(** ** Keywords *)

(** X16: the keywords of RFC 2119 are the keys of [words2119]. Adding a key
    makes the double emphasis of exactly that text a [bcp14] node, whatever
    value is stored with it, and changes the rendering of no other text. *)
Theorem DoubleEmphasis_keyword_added
    (IAL title : Type) (words : gmap string bool) (k : string) (v : bool)
    (text : list byte) (w : World IAL title) :
  DoubleEmphasis IAL title (<[k := v]> words) text w
  = if decide (string_of_list_byte text = k)
    then Some (tt, (w.1, w.2 ++ bytes "<bcp14>" ++ text ++ bytes "</bcp14>"))
    else DoubleEmphasis IAL title words text w.
Proof.
  unfold DoubleEmphasis. cbv zeta. case_decide as Hk.
  - subst k. rewrite lookup_insert_eq.
    unfold bind, WriteString, Write. simpl. by rewrite <- !app_assoc.
  - by rewrite lookup_insert_ne.
Qed.

(** ** More sample instances *)
Module SampleDoc.

Record author : Type := mkAuthor {
  Initials : string;
  Surname : string;
  Fullname : string;
  Role : string;
  Ascii : string
}.

Record title : Type := mkTitle {
  Ipr : string;
  Category : string;
  DocName : string;
  Abbrev : string;
  Title : string;
  Area : string;
  Workgroup : string;
  Keyword : list string;
  Author : list author;
  Date_Year : Z;
  Date_Month : Z;
  Date_Day : Z
}.

Definition Month_String (m : Z) : string :=
  nth (Z.to_nat (m - 1))
    ["January"; "February"; "March"; "April"; "May"; "June"; "July"; "August";
     "September"; "October"; "November"; "December"]
    "%!Month()".

(** A title block with a year and a month but no day. *)
Definition block : title :=
  mkTitle "trust200902" "info" "draft-example-00" "Example" "An Example" "Internet"
    "" ["markdown"; "xml"] [mkAuthor "R." "Gieben" "R. (Miek) Gieben" "editor" ""]
    2014 8 0.

(** A [convertEntity] that writes the text as it is. *)
Definition convertEntity (text out : list byte) : option (list byte) :=
  Some (out ++ text).

(** Citations that are neither informative nor normative. *)
Definition unclassified : gmap string Sample.citation :=
  <["A" := Sample.mkCitation (bytes "RFC1034") "x" []]>
  (<["B" := Sample.mkCitation (bytes "RFC2119") "I" []]> ∅).

(** The headings of a document: levels 1, 2, 3, 1. *)
Definition outline : list heading :=
  [mkHeading 1 "intro" (bytes "Introduction") true;
   mkHeading 2 "terms" (bytes "Terms <em>used</em>") true;
   mkHeading 3 "notes" [] false;
   mkHeading 1 "security" (bytes "Security") true].

End SampleDoc.

Local Abbreviation Sample_DocumentMatter :=
  (DocumentMatter Sample.DOC_FRONT_MATTER Sample.DOC_MAIN_MATTER Sample.DOC_BACK_MATTER
     unit unit).

Lemma Sample_writes_extends (s : string) (produced : bool) :
  extends unit unit (Sample.writes s produced).
Proof. intros o b. by exists produced, o, (bytes s). Defined.

Lemma callback_handlers_extend_witness :
  extends unit unit (Header unit unit (Sample.writes "T" true) 2 "a" false)
  ∧ extends unit unit
      (List Sample.LIST_TYPE_ORDERED Sample.LIST_TYPE_DEFINITION unit unit
         (Sample.writes "T" true) 1 5)
  ∧ extends unit unit (Paragraph unit unit (Sample.writes "T" true))
  ∧ extends unit unit (CodeSpan unit unit SampleDoc.convertEntity (bytes "x")).
Proof.
  destruct (callback_handlers_extend Sample.LIST_TYPE_ORDERED Sample.LIST_TYPE_DEFINITION
              unit unit SampleDoc.convertEntity (Sample.writes "T" true) 2 "a" false 1 5
              (bytes "x") (Sample_writes_extends "T" true))
    as (HHeader & HList & HParagraph & HCodeSpan).
  repeat apply conj; [exact HHeader | exact HList | exact HParagraph |].
  apply HCodeSpan. intros out. exists (bytes "x"). reflexivity.
Defined.

Lemma List_closes_what_it_opened_witness :
  List Sample.LIST_TYPE_ORDERED Sample.LIST_TYPE_DEFINITION unit unit
    (Sample.writes "<li>a</li>" true) 3 5 (renderer 1 2 2, bytes "abc")
  = Some (tt, (renderer 1 2 2,
               bytes "abc" ++ bytes ("<ol start=" +:+ dq +:+ "5" +:+ dq +:+ ">" +:+ nl)
                 ++ bytes "<li>a</li>" ++ bytes ("</ol>" +:+ nl))).
Proof.
  etransitivity.
  - apply (List_closes_what_it_opened Sample.LIST_TYPE_ORDERED Sample.LIST_TYPE_DEFINITION
             unit unit (Sample.writes "<li>a</li>" true) 3 5 (renderer 1 2 2) (bytes "abc")).
    reflexivity.
  - vm_compute. reflexivity.
Defined.

Lemma Image_and_AutoLink_as_Link_witness :
  Image unit unit (bytes "http://host/a.png") [] (bytes "A") (renderer 1 0 0, [])
  = Link unit unit (bytes "http://host/a.png") [] (bytes "A") (renderer 1 0 0, [])
  ∧ AutoLink unit unit 2 (bytes "http://host/") 1 (renderer 1 0 0, [])
    = Link unit unit (bytes "http://host/") [] (bytes "http://host/") (renderer 1 0 0, [])
  ∧ AutoLink unit unit 2 (bytes "a@host") 2 (renderer 1 0 0, [])
    = Link unit unit (bytes "mailto:" ++ bytes "a@host") [] (bytes "a@host")
        (renderer 1 0 0, []).
Proof.
  repeat apply conj.
  - apply (Image_and_AutoLink_as_Link unit unit 2 (bytes "http://host/a.png") []
             (bytes "A") 1 (renderer 1 0 0, [])).
    left. exists (bytes "host/a.png"). vm_compute. reflexivity.
  - apply (Image_and_AutoLink_as_Link unit unit 2 (bytes "http://host/") []
             (bytes "A") 1 (renderer 1 0 0, [])).
    discriminate.
  - apply (Image_and_AutoLink_as_Link unit unit 2 (bytes "a@host") []
             (bytes "A") 2 (renderer 1 0 0, [])).
    reflexivity.
Defined.

Local Abbreviation Sample_TitleBlockTOML :=
  (TitleBlockTOML Sample.XML_STANDALONE unit SampleDoc.title SampleDoc.author
     SampleDoc.Ipr SampleDoc.Category SampleDoc.DocName SampleDoc.Abbrev SampleDoc.Title
     SampleDoc.Area SampleDoc.Workgroup SampleDoc.Keyword SampleDoc.Author
     SampleDoc.Initials SampleDoc.Surname SampleDoc.Fullname SampleDoc.Role SampleDoc.Ascii
     SampleDoc.Date_Year SampleDoc.Date_Month SampleDoc.Date_Day SampleDoc.Month_String).
Local Abbreviation Sample_title_block :=
  (title_block SampleDoc.title SampleDoc.author
     SampleDoc.Ipr SampleDoc.Category SampleDoc.DocName SampleDoc.Abbrev SampleDoc.Title
     SampleDoc.Area SampleDoc.Workgroup SampleDoc.Keyword SampleDoc.Author
     SampleDoc.Initials SampleDoc.Surname SampleDoc.Fullname SampleDoc.Role SampleDoc.Ascii
     SampleDoc.Date_Year SampleDoc.Date_Month SampleDoc.Date_Day SampleDoc.Month_String).

Lemma TitleBlockTOML_front_matter_witness :
  Sample_TitleBlockTOML SampleDoc.block
    (mkXml2 unit SampleDoc.title 0 0 0 [] None, bytes "abc")
  = Some (tt, (mkXml2 unit SampleDoc.title 0 0 0 [] None, bytes "abc"))
  ∧ Sample_TitleBlockTOML SampleDoc.block
      (mkXml2 unit SampleDoc.title 1 0 0 [] None, [])
    = Some (tt, (mkXml2 unit SampleDoc.title 1 0 0 [] (Some SampleDoc.block),
                 Sample_title_block SampleDoc.block)).
Proof.
  split.
  - apply (TitleBlockTOML_front_matter Sample.XML_STANDALONE unit SampleDoc.title
             SampleDoc.author).
    reflexivity.
  - etransitivity.
    + apply (TitleBlockTOML_front_matter Sample.XML_STANDALONE unit SampleDoc.title
               SampleDoc.author).
      vm_compute. discriminate.
    + vm_compute. reflexivity.
Defined.

Local Abbreviation informative_group :=
  (bytes ("<references title=" +:+ dq +:+ "Informative References" +:+ dq +:+ ">" +:+ nl
            +:+ tab +:+ "<xi:include href=" +:+ dq +:+ "reference.RFC2119.xml" +:+ dq
            +:+ "/>" +:+ nl +:+ "</references>" +:+ nl)).
Local Abbreviation normative_group :=
  (bytes ("<references title=" +:+ dq +:+ "Normative References" +:+ dq +:+ ">" +:+ nl
            +:+ tab +:+ "<xi:include href=" +:+ dq +:+ "c.xml" +:+ dq +:+ "/>" +:+ nl
            +:+ tab +:+ "<xi:include href=" +:+ dq +:+ "reference.RFC1034.xml" +:+ dq
            +:+ "/>" +:+ nl +:+ "</references>" +:+ nl)).

Lemma References_then_DocumentFooter_witness :
  bind unit unit (Sample_References Sample.citations true)
    (fun _ => Sample_DocumentFooter true) (renderer 1 2 2, bytes "abc")
  = Some (tt, (renderer 1 0 3,
               bytes "abc" ++ section_closes 2
                 ++ bytes ("</middle>" +:+ nl +:+ "<back>" +:+ nl)
                 ++ informative_group ++ normative_group
                 ++ bytes ("</back>" +:+ nl +:+ "</rfc>" +:+ nl))).
Proof.
  assert (standalone Sample.XML_STANDALONE unit unit (renderer 1 2 2)) as Hs
    by (vm_compute; discriminate).
  assert (0 <= 2 <= GoInt.int_max) as Hk by (vm_compute; split; discriminate).
  assert (Z.of_nat (size Sample.citations) <= GoInt.int_max) as Hsize
    by (vm_compute; discriminate).
  etransitivity.
  - exact (References_then_DocumentFooter Sample.XML_STANDALONE
             Sample.DOC_FRONT_MATTER Sample.DOC_MAIN_MATTER Sample.DOC_BACK_MATTER
             unit unit Sample.citation Sample.typ Sample.filename
             Sample.referenceFile Sample.range Sample_DOC_distinct Sample_range_perm
             Main 2 Sample.citations (renderer 1 2 2) (bytes "abc")
             Hs eq_refl Hk eq_refl Hsize).
  - vm_compute. reflexivity.
Defined.

Lemma no_division_no_matter_tags_witness :
  Sample_DocumentFooter true (renderer 1 1 0, bytes "abc")
  = Some (tt, (renderer 1 0 0,
               bytes "abc" ++ section_closes 1 ++ bytes ("</rfc>" +:+ nl)))
  ∧ Sample_References Sample.citations true (renderer 1 1 0, bytes "abc")
    = Some (tt, (renderer 1 0 3,
                 bytes "abc" ++ section_closes 1 ++ informative_group ++ normative_group)).
Proof.
  assert (standalone Sample.XML_STANDALONE unit unit (renderer 1 1 0)) as Hs
    by (vm_compute; discriminate).
  assert (0 <= 1 <= GoInt.int_max) as Hk by (vm_compute; split; discriminate).
  assert (Z.of_nat (size Sample.citations) <= GoInt.int_max) as Hsize
    by (vm_compute; discriminate).
  destruct (no_division_no_matter_tags Sample.XML_STANDALONE
              Sample.DOC_FRONT_MATTER Sample.DOC_MAIN_MATTER Sample.DOC_BACK_MATTER
              unit unit Sample.citation Sample.typ Sample.filename
              Sample.referenceFile Sample.range Sample_range_perm
              1 Sample.citations (renderer 1 1 0) (bytes "abc")
              Hs eq_refl Hk ltac:(discriminate) ltac:(discriminate) ltac:(discriminate)
              Hsize) as [Hfooter Hrefs].
  split.
  - exact Hfooter.
  - etransitivity; [exact Hrefs|]. vm_compute. reflexivity.
Defined.

Lemma References_other_kinds_omitted_witness :
  Sample_References SampleDoc.unclassified true (renderer 1 2 2, bytes "abc")
  = Some (tt, (renderer 1 0 3,
               bytes "abc" ++ section_closes 2
                 ++ bytes ("</middle>" +:+ nl) ++ bytes ("<back>" +:+ nl))).
Proof.
  assert (standalone Sample.XML_STANDALONE unit unit (renderer 1 2 2)) as Hs
    by (vm_compute; discriminate).
  assert (0 <= 2 <= GoInt.int_max) as Hk by (vm_compute; split; discriminate).
  assert (Z.of_nat (size SampleDoc.unclassified) <= GoInt.int_max) as Hsize
    by (vm_compute; discriminate).
  apply (References_other_kinds_omitted Sample.XML_STANDALONE
           Sample.DOC_FRONT_MATTER Sample.DOC_MAIN_MATTER Sample.DOC_BACK_MATTER
           unit unit Sample.citation Sample.typ Sample.filename
           Sample.referenceFile Sample.range Sample_DOC_distinct Sample_range_perm
           Main 2 SampleDoc.unclassified (renderer 1 2 2) (bytes "abc")
           Hs eq_refl Hk eq_refl Hsize).
  intros key c Hc. unfold SampleDoc.unclassified in Hc.
  apply lookup_insert_Some in Hc as [[_ <-]|[_ Hc]]; [split; discriminate|].
  apply lookup_insert_Some in Hc as [[_ <-]|[_ Hc]]; [split; discriminate|].
  rewrite lookup_empty in Hc. discriminate.
Defined.

Lemma DocumentMatter_then_DocumentFooter_witness :
  bind unit unit (Sample_DocumentMatter Sample.DOC_BACK_MATTER)
    (fun _ => Sample_DocumentFooter true) (renderer 1 2 2, bytes "abc")
  = Some (tt, (renderer 1 0 3,
               bytes "abc" ++ (bytes ("</middle>" +:+ nl) ++ bytes ("<back>" +:+ nl))
                 ++ section_closes 2
                 ++ bytes ("</back>" +:+ nl) ++ bytes ("</rfc>" +:+ nl))).
Proof.
  apply (DocumentMatter_then_DocumentFooter Sample.XML_STANDALONE
           Sample.DOC_FRONT_MATTER Sample.DOC_MAIN_MATTER Sample.DOC_BACK_MATTER
           unit unit Sample_DOC_distinct Back 2 (renderer 1 2 2) (bytes "abc")).
  - vm_compute. discriminate.
  - reflexivity.
  - vm_compute. split; discriminate.
Defined.

Lemma SampleDoc_outline_clean : Forall clean SampleDoc.outline.
Proof. repeat constructor; vm_compute; reflexivity. Defined.

Lemma no_skip_headings_balanced_witness :
  ∃ o' out,
    bind unit unit (headings unit unit SampleDoc.outline)
      (fun _ => Sample_DocumentFooter true) (Xml2Renderer unit unit 1, [])
    = Some (tt, (o', out))
    ∧ sectionLevel unit unit o' = 0
    ∧ count_occurrences open_tag out = 4%nat
    ∧ count_occurrences close_tag out = 4%nat.
Proof.
  apply (no_skip_headings_balanced Sample.XML_STANDALONE
           Sample.DOC_FRONT_MATTER Sample.DOC_MAIN_MATTER Sample.DOC_BACK_MATTER
           unit unit SampleDoc.outline (Xml2Renderer unit unit 1) []).
  - vm_compute. discriminate.
  - vm_compute. split; discriminate.
  - vm_compute. repeat split; discriminate.
  - exact SampleDoc_outline_clean.
Defined.

Lemma skipped_level_surplus_witness :
  ∃ o' out,
    bind unit unit
      (Header unit unit (titled unit unit (bytes "B") true) 3 "b" false)
      (fun _ => Sample_DocumentFooter true) (renderer 1 1 2, bytes "abc")
    = Some (tt, (o', out))
    ∧ count_occurrences open_tag out = (count_occurrences open_tag (bytes "abc") + 1)%nat
    ∧ count_occurrences close_tag out
      = (count_occurrences close_tag (bytes "abc") + Z.to_nat 3)%nat
    ∧ (Z.to_nat 1 + 1 < Z.to_nat 3)%nat.
Proof.
  apply (skipped_level_surplus Sample.XML_STANDALONE
           Sample.DOC_FRONT_MATTER Sample.DOC_MAIN_MATTER Sample.DOC_BACK_MATTER
           unit unit (mkHeading 3 "b" (bytes "B") true) (renderer 1 1 2) (bytes "abc")).
  - vm_compute. discriminate.
  - vm_compute. discriminate.
  - vm_compute. reflexivity.
  - vm_compute. discriminate.
  - split; split; vm_compute; reflexivity.
Defined.

Lemma standalone_document_skeleton_witness :
  bind unit SampleDoc.title (DocumentHeader Sample.XML_STANDALONE unit SampleDoc.title true)
    (fun _ =>
     bind unit SampleDoc.title (Sample_TitleBlockTOML SampleDoc.block)
       (fun _ =>
        bind unit SampleDoc.title
          (DocumentMatter Sample.DOC_FRONT_MATTER Sample.DOC_MAIN_MATTER
             Sample.DOC_BACK_MATTER unit SampleDoc.title Sample.DOC_MAIN_MATTER)
          (fun _ =>
           bind unit SampleDoc.title (Abstract unit SampleDoc.title (bytes "text"))
             (fun _ =>
              bind unit SampleDoc.title
                (References Sample.XML_STANDALONE Sample.DOC_FRONT_MATTER
                   Sample.DOC_MAIN_MATTER Sample.DOC_BACK_MATTER unit SampleDoc.title
                   Sample.citation Sample.typ Sample.filename Sample.referenceFile
                   Sample.range Sample.citations true)
                (fun _ =>
                 DocumentFooter Sample.XML_STANDALONE Sample.DOC_FRONT_MATTER
                   Sample.DOC_MAIN_MATTER Sample.DOC_BACK_MATTER unit SampleDoc.title
                   true)))))
    (Xml2Renderer unit SampleDoc.title 1, [])
  = Some (tt, (mkXml2 unit SampleDoc.title 1 0 3 [] (Some SampleDoc.block),
               bytes ("<?xml version=" +:+ dq +:+ "1.0" +:+ dq +:+ " encoding="
                        +:+ dq +:+ "UTF-8" +:+ dq +:+ "?>" +:+ nl)
                 ++ Sample_title_block SampleDoc.block
                 ++ bytes ("</front>" +:+ nl +:+ "<middle>" +:+ nl)
                 ++ bytes ("<abstract>" +:+ nl +:+ "text" +:+ "</abstract>" +:+ nl)
                 ++ bytes ("</middle>" +:+ nl +:+ "<back>" +:+ nl)
                 ++ informative_group ++ normative_group
                 ++ bytes ("</back>" +:+ nl +:+ "</rfc>" +:+ nl))).
Proof.
  assert (emits unit SampleDoc.title (Abstract unit SampleDoc.title (bytes "text"))
            (bytes ("<abstract>" +:+ nl) ++ bytes "text" ++ bytes ("</abstract>" +:+ nl)))
    as Hbody by (repeat apply emits_seq; (apply emits_WriteString || apply emits_Write)).
  assert (Z.of_nat (size Sample.citations) <= GoInt.int_max) as Hsize
    by (vm_compute; discriminate).
  etransitivity.
  - exact (standalone_document_skeleton Sample.XML_STANDALONE
             Sample.DOC_FRONT_MATTER Sample.DOC_MAIN_MATTER Sample.DOC_BACK_MATTER
             unit SampleDoc.title Sample.citation Sample.typ Sample.filename
             Sample.referenceFile Sample.range Sample_DOC_distinct Sample_range_perm
             SampleDoc.author
             SampleDoc.Ipr SampleDoc.Category SampleDoc.DocName SampleDoc.Abbrev
             SampleDoc.Title SampleDoc.Area SampleDoc.Workgroup SampleDoc.Keyword
             SampleDoc.Author SampleDoc.Initials SampleDoc.Surname SampleDoc.Fullname
             SampleDoc.Role SampleDoc.Ascii SampleDoc.Date_Year SampleDoc.Date_Month
             SampleDoc.Date_Day SampleDoc.Month_String
             1 SampleDoc.block _ _ Sample.citations
             ltac:(vm_compute; discriminate) Hbody Hsize).
  - vm_compute. reflexivity.
Defined.
